(** * The parsing driver, the error classifier and the exception chainer of
      [batavia/modules/_compile/_compile.js]

    The file is a hand port of CPython's [pythonrun.c], [errors.c] and
    [parsetok.c] to JavaScript.  This development embeds its three working
    functions, [PyErr_SetObject], [err_input] and [parsetok], and states
    the properties the design document gives for them.

    The port calls many names it never defines ([PyThreadState_GET],
    [PyException_GetContext], [NULL], the [E_*] codes, ...).  Each of them
    is introduced below either as a parameter or as a definition whose
    comment says what it stands for. *)

From Stdlib Require Import ZArith Lia Ascii.
From stdpp Require Import base numbers list strings.

Set Default Proof Using "Type".

(** ** JavaScript values *)

(** The exception classes the file names through [exceptions.*], and
    [PyExc_SystemError]. *)
Inductive pyclass :=
  | SyntaxError
  | IndentationError
  | TabError
  | MemoryError
  | KeyboardInterrupt
  | SystemError.

(** The values that reach the three functions.  [JNull] stands for [null],
    [undefined] and the C name [NULL]; [JArr] is a JavaScript array, which
    is what the port builds where CPython builds a tuple; [ExcRef a] is a
    reference to the exception instance stored at address [a]. *)
#[warnings="-register-all"]
Inductive jsval :=
  | JNull
  | Py_None
  | JNum (z : Z)
  | JStr (s : string)
  | JArr (l : list jsval)
  | JCls (c : pyclass)
  | ExcRef (a : nat).

Fixpoint jsval_eq_dec (x y : jsval) : {x = y} + {x <> y}.
Proof.
  decide equality.
  - apply Z.eq_dec.
  - apply String.string_dec.
  - apply (List.list_eq_dec jsval_eq_dec).
  - decide equality.
  - apply Nat.eq_dec.
Defined.

#[global] Instance jsval_eqdec : EqDecision jsval := jsval_eq_dec.

(** [x == y] and [x != y].  References compare by address, the other
    values by content; no comparison in the file has a reference on one
    side and a string or a number that could coerce to it on the other. *)
Definition js_eq (x y : jsval) : bool := bool_decide (x = y).

(** [v == null]. *)
Definition is_null (v : jsval) : bool :=
  match v with JNull => true | _ => false end.

Definition is_None (v : jsval) : bool :=
  match v with Py_None => true | _ => false end.

(** The truth value JavaScript gives a value in [if (v)], [while (v)] and
    [!v]. *)
Definition truthy (v : jsval) : bool :=
  match v with
  | JNull => false
  | JNum z => negb (z =? 0)%Z
  | JStr s => negb (String.eqb s "")
  | _ => true
  end.

(** ** Exception instances and the thread state *)

Record ExcObj := mkExc {
  exc_class : jsval;
  exc_args : list jsval;
  exc_context : jsval;
  exc_tb : jsval
}.

(** The store of exception instances, the thread state's exception slot,
    and the two names [PyErr_SetObject] uses without declaring them:
    [value] (its parameter is spelled [o]) and [context] (its local is
    spelled [ontext]).  JavaScript resolves both in the global scope:
    [None] is a name with no binding, whose read throws. *)
Record State := mkState {
  heap : list ExcObj;
  exc_type : jsval;
  exc_value : jsval;
  exc_traceback : jsval;
  g_value : option jsval;
  g_context : option jsval
}.

Definition set_heap (h : list ExcObj) (st : State) : State :=
  mkState h (exc_type st) (exc_value st) (exc_traceback st)
          (g_value st) (g_context st).

Definition set_g_value (v : option jsval) (st : State) : State :=
  mkState (heap st) (exc_type st) (exc_value st) (exc_traceback st)
          v (g_context st).

Definition set_g_context (c : option jsval) (st : State) : State :=
  mkState (heap st) (exc_type st) (exc_value st) (exc_traceback st)
          (g_value st) c.

Inductive JsError :=
  | ReferenceError (name : string).

(** What a call does: it returns, it throws a JavaScript error, or the
    loop inside it is still running when the fuel is spent. *)
Inductive Result (A : Type) :=
  | Ok (a : A)
  | Throw (e : JsError)
  | OutOfFuel.
Arguments Ok {A} a.
Arguments Throw {A} e.
Arguments OutOfFuel {A}.

Definition bind {A B} (r : Result A) (k : A -> Result B) : Result B :=
  match r with
  | Ok a => k a
  | Throw e => Throw e
  | OutOfFuel => OutOfFuel
  end.

Notation "'let*' x ':=' r 'in' k" := (bind r (fun x => k))
  (at level 10, x name, r at level 100, k at level 200).

(** ** Constants the file reads and never defines *)

(** The error codes [_compile.E_*] (CPython's [errcode.h]).  They are
    taken as parameters: any eighteen pairwise distinct numbers. *)
Class ErrCodes := {
  E_OK : Z;
  E_EOF : Z;
  E_INTR : Z;
  E_TOKEN : Z;
  E_SYNTAX : Z;
  E_NOMEM : Z;
  E_DONE : Z;
  E_ERROR : Z;
  E_TABSPACE : Z;
  E_OVERFLOW : Z;
  E_TOODEEP : Z;
  E_DEDENT : Z;
  E_DECODE : Z;
  E_EOFS : Z;
  E_EOLS : Z;
  E_LINECONT : Z;
  E_IDENTIFIER : Z;
  E_BADSINGLE : Z;
  E_distinct :
    NoDup [E_OK; E_EOF; E_INTR; E_TOKEN; E_SYNTAX; E_NOMEM; E_DONE; E_ERROR;
           E_TABSPACE; E_OVERFLOW; E_TOODEEP; E_DEDENT; E_DECODE; E_EOFS;
           E_EOLS; E_LINECONT; E_IDENTIFIER; E_BADSINGLE]
}.

(** The token types [_compile.ENDMARKER], ... (CPython's [token.h]), and
    the two grammar symbols of [graminit] the driver names. *)
Class TokenTypes := {
  ENDMARKER : Z;
  NEWLINE : Z;
  INDENT : Z;
  DEDENT : Z;
  ERRORTOKEN : Z;
  T_distinct : NoDup [ENDMARKER; NEWLINE; INDENT; DEDENT; ERRORTOKEN];
  single_input : Z;
  encoding_decl : Z
}.

(** The numbers CPython 3.5 gives these names. *)
Definition cpython_E_distinct :
  NoDup [10; 11; 12; 13; 14; 15; 16; 17; 18; 19; 20; 21; 22; 23; 24; 25;
         26; 27]%Z.
Proof. apply (bool_decide_unpack _). vm_compute. exact I. Qed.

Definition cpython_T_distinct : NoDup [0; 4; 5; 6; 56]%Z.
Proof. apply (bool_decide_unpack _). vm_compute. exact I. Qed.

Definition cpython_errcodes : ErrCodes :=
  Build_ErrCodes 10 11 12 13 14 15 16 17 18 19 20 21 22 23 24 25 26 27
                 cpython_E_distinct.

Definition cpython_tokens : TokenTypes :=
  Build_TokenTypes 0 4 5 6 56 cpython_T_distinct 256 339.

(** ** The error record, lines 22 to 34 *)

Record ErrorDetail := mkErr {
  error : Z;
  lineno : Z;
  offset : Z;
  text : option string;
  token : Z;
  expected : Z;
  filename : string
}.

Definition set_error (e : Z) (err : ErrorDetail) : ErrorDetail :=
  mkErr e (lineno err) (offset err) (text err) (token err) (expected err)
        (filename err).

Definition set_token (t : Z) (err : ErrorDetail) : ErrorDetail :=
  mkErr (error err) (lineno err) (offset err) (text err) t (expected err)
        (filename err).

(** [new ErrorDetail(filename)]; an absent or empty file name is falsy. *)
Definition new_ErrorDetail `{ErrCodes} (name : option string) : ErrorDetail :=
  mkErr E_OK 0 0 None (-1) (-1)
        match name with
        | Some f => if String.eqb f "" then "<string>" else f
        | None => "<string>"
        end.

Module Chainer.

(** *** The C API names the port calls *)

(** Modelled from the spec: [PyErr_Restore] is not in the repository.  It
    installs [(kind, value, traceback)] as the active record, fully
    replacing the previous state. *)
Definition PyErr_Restore (type value tb : jsval) (st : State) : State :=
  mkState (heap st) type value tb (g_value st) (g_context st).

(** Modelled from the spec: [PyErr_Clear] is not in the repository.  It
    clears the active slot. *)
Definition PyErr_Clear (st : State) : State :=
  PyErr_Restore JNull JNull JNull st.

(** Modelled from the spec: [PyErr_Occurred] is not in the repository.
    It answers whether an exception is currently active, as CPython does,
    by the kind held in the slot. *)
Definition PyErr_Occurred (st : State) : jsval := exc_type st.

(** Modelled from the spec: [PyErr_Fetch] is not in the repository.  It
    hands out the active record and clears the slot. *)
Definition PyErr_Fetch (st : State) : (jsval * jsval * jsval) * State :=
  ((exc_type st, exc_value st, exc_traceback st), PyErr_Clear st).

Definition PyExceptionClass_Check (v : jsval) : bool :=
  match v with JCls _ => true | _ => false end.

Definition PyExceptionInstance_Check (h : list ExcObj) (v : jsval) : bool :=
  match v with
  | ExcRef a => bool_decide (is_Some (h !! a))
  | _ => false
  end.

Definition PyException_GetContext (h : list ExcObj) (o : jsval) : jsval :=
  match o with
  | ExcRef a => match h !! a with Some ob => exc_context ob | None => JNull end
  | _ => JNull
  end.

Definition PyException_GetTraceback (h : list ExcObj) (o : jsval) : jsval :=
  match o with
  | ExcRef a => match h !! a with Some ob => exc_tb ob | None => JNull end
  | _ => JNull
  end.

Definition set_context (c : jsval) (ob : ExcObj) : ExcObj :=
  mkExc (exc_class ob) (exc_args ob) c (exc_tb ob).

Definition PyException_SetContext (h : list ExcObj) (o c : jsval)
  : list ExcObj :=
  match o with
  | ExcRef a => alter (set_context c) a h
  | _ => h
  end.

Definition PyTuple_Check (v : jsval) : bool :=
  match v with JArr _ => true | _ => false end.

(** Calling an exception class with the argument tuple builds a new
    instance, with no context and no traceback; calling anything else
    yields [NULL]. *)
Definition PyEval_CallObject (callee : jsval) (args : list jsval)
    (h : list ExcObj) : option (jsval * list ExcObj) :=
  match callee with
  | JCls c => Some (ExcRef (length h), h ++ [mkExc callee args JNull JNull])
  | _ => None
  end.

(** *** [PyErr_SetObject], lines 40 to 98 *)

(** Lines 64 to 71: the argument tuple of the normalising call. *)
Definition normalize_args (value : jsval) : list jsval :=
  if is_null value || is_None value then []
  else match value with
       | JArr l => l
       | _ => [value]
       end.

(** Lines 83 to 91.  [o] starts at the active record; each round reads
    its context into the global [context]. *)
Fixpoint unlink_loop (fuel : nat) (h : list ExcObj) (o value : jsval)
  : Result (list ExcObj * jsval) :=
  match fuel with
  | O => OutOfFuel
  | S fuel' =>
      let context := PyException_GetContext h o in
      if truthy context then
        if js_eq context value
        then Ok (PyException_SetContext h o JNull, context)
        else unlink_loop fuel' h context value
      else Ok (h, context)
  end.

(** Lines 95 to 97. *)
Definition install (exception value : jsval) (st : State) : State :=
  let tb :=
    if negb (is_null value) && PyExceptionInstance_Check (heap st) value
    then PyException_GetTraceback (heap st) value
    else JNull in
  PyErr_Restore exception value tb st.

(** Lines 82 to 97, entered with [value] an instance. *)
Definition chain_and_install (fuel : nat) (exception exc_value value : jsval)
    (st : State) : Result State :=
  let* st' :=
    (if negb (js_eq exc_value value) then
       let* r := unlink_loop fuel (heap st) exc_value value in
       Ok (set_heap (PyException_SetContext (fst r) value exc_value)
                    (set_g_context (Some (snd r)) st))
     else Ok st) in
  Ok (install exception value st').

(** Lines 52 to 97.  The parameter [o] is never read: line 83 overwrites
    it, and every other line names [value].  On either side of line 53
    the first thing evaluated after it is a read of [value] (line 55, or
    line 95), before anything is written: the lookup of the name is done
    once, up front. *)
Definition set_object_body (fuel : nat) (exception o : jsval) (st : State)
  : Result State :=
  let exc_value := exc_value st in
  match g_value st with
  | None => Throw (ReferenceError "value")
  | Some value =>
      if negb (is_null exc_value) && negb (is_None exc_value) then
        if is_null value || negb (PyExceptionInstance_Check (heap st) value)
        then
          let st1 := PyErr_Clear st in
          match PyEval_CallObject exception (normalize_args value) (heap st1)
          with
          | None => Ok st1
          | Some (fixed_value, h) =>
              chain_and_install fuel exception exc_value fixed_value
                (set_g_value (Some fixed_value) (set_heap h st1))
          end
        else chain_and_install fuel exception exc_value value st
      else Ok (install exception value st)
  end.

(** [PyErr_Format] is not in the repository either; in CPython it formats
    the message and raises it through [PyErr_SetObject]. *)
Definition PyErr_Format (fuel : nat) (exception : jsval) (msg : string)
    (st : State) : Result State :=
  set_object_body fuel exception (JStr msg) st.

Definition PyErr_SetObject (fuel : nat) (exception o : jsval) (st : State)
  : Result State :=
  if negb (is_null exception) && negb (PyExceptionClass_Check exception)
  then PyErr_Format fuel (JCls SystemError)
         "exception %R not a BaseException subclass" st
  else set_object_body fuel exception o st.

Definition PyErr_SetNone (fuel : nat) (exception : jsval) (st : State)
  : Result State :=
  PyErr_SetObject fuel exception JNull st.

(** *** Context chains *)

(** The instance a value refers to, when it refers to one. *)
Definition instance (h : list ExcObj) (v : jsval) : option ExcObj :=
  match v with
  | ExcRef a => h !! a
  | _ => None
  end.

(** [chain h v l]: following the context links from [v] visits the
    records at the addresses [l], in that order, and then stops at a
    value that is no record. *)
Inductive chain (h : list ExcObj) : jsval -> list nat -> Prop :=
  | chain_end v :
      instance h v = None -> chain h v []
  | chain_step a ob l :
      h !! a = Some ob -> chain h (exc_context ob) l ->
      chain h (ExcRef a) (a :: l).

(** The same walk as a function. *)
Fixpoint context_chain (fuel : nat) (h : list ExcObj) (v : jsval)
  : option (list nat) :=
  match instance h v, v with
  | Some ob, ExcRef a =>
      match fuel with
      | O => None
      | S fuel' => cons a <$> context_chain fuel' h (exc_context ob)
      end
  | _, _ => Some []
  end.

(** Every context chain of the store is finite. *)
Definition wf_heap (h : list ExcObj) : Prop :=
  forall v, exists l, chain h v l.

(** No record is its own context. *)
Definition no_self_context (h : list ExcObj) : Prop :=
  forall a ob, h !! a = Some ob -> exc_context ob <> ExcRef a.

(** What the scan of lines 83 to 91 does to the store when it walks the
    chain [l] of the active record looking for the record at [V]: nothing
    when [V] is not on the chain, and otherwise the record [p] whose
    context is [V] has its context set to none. *)
Definition unlink_effect (h : list ExcObj) (V : nat) (l : list nat)
    (h1 : list ExcObj) : Prop :=
  ((V ∉ l) /\ h1 = h) \/
  (exists p, p ∈ l /\ PyException_GetContext h (ExcRef p) = ExcRef V /\
             h1 = PyException_SetContext h (ExcRef p) JNull).

(** The slot holds an exception that line 53 chains to. *)
Definition active (st : State) : bool :=
  negb (is_null (exc_value st)) && negb (is_None (exc_value st)).

(** The record at the active slot is an instance of [exception] built
    from the arguments [normalize_args o]. *)
Definition coerced_and_installed (exception o : jsval) (st' : State)
  : Prop :=
  exists a ob,
    exc_value st' = ExcRef a /\ heap st' !! a = Some ob /\
    exc_class ob = exception /\ exc_args ob = normalize_args o.

(** A sequence of raises.  Between two calls the enclosing scope may bind
    the name [value] to anything (the body reads that name, the caller's
    argument does not reach it), and the caller may clear the active
    slot. *)
Inductive raises : State -> State -> Prop :=
  | raises_done st :
      raises st st
  | raises_call st fuel exception o st1 st2 :
      PyErr_SetObject fuel exception o st = Ok st1 ->
      raises st1 st2 ->
      raises st st2
  | raises_scope st v st2 :
      raises (set_g_value v st) st2 ->
      raises st st2
  | raises_clear st st2 :
      raises (PyErr_Clear st) st2 ->
      raises st st2.

(** *** States used as examples *)

(** Nothing raised yet, no record built, the name [value] unbound. *)
Definition st_empty : State := mkState [] JNull JNull JNull None None.

(** Two records; the first one is active, and [value] is unbound, as it is
    in the file. *)
Definition st_A_active : State :=
  mkState [mkExc (JCls SyntaxError) [JStr "a"] JNull JNull;
           mkExc (JCls TabError) [JStr "b"] JNull (JStr "tb")]
          (JCls SyntaxError) (ExcRef 0) JNull None None.

(** The second record is active, chained to the first, and [value] names
    it. *)
Definition st_B_active : State :=
  mkState [mkExc (JCls SyntaxError) [JStr "a"] JNull JNull;
           mkExc (JCls TabError) [JStr "b"] (ExcRef 0) (JStr "tb")]
          (JCls TabError) (ExcRef 1) (JStr "tb") (Some (ExcRef 1)) None.

(** Nothing active, and [value] names a string. *)
Definition st_raw_inactive : State :=
  mkState [] JNull JNull JNull (Some (JStr "boom")) None.

(** A record active, and [value] names an array. *)
Definition st_raw_active : State :=
  mkState [mkExc (JCls TabError) [] JNull JNull] (JCls TabError) (ExcRef 0)
          JNull (Some (JArr [JStr "boom"; JNum 7])) None.

(** Where four raises lead from [st_empty]: the strings [a] and [b], then
    nothing as [TabError], then the record built for [b] again. *)
Definition st_after : State :=
  mkState [mkExc (JCls SyntaxError) [JStr "b"] (ExcRef 1) JNull;
           mkExc (JCls TabError) [] JNull JNull]
          (JCls SyntaxError) (ExcRef 0) JNull (Some (ExcRef 0))
          (Some (ExcRef 0)).

(** *** The chain a raise leaves *)

(** The part of a chain that comes before the record at [V]. *)
Fixpoint chain_before (V : nat) (l : list nat) : list nat :=
  match l with
  | [] => []
  | a :: l' => if decide (a = V) then [] else a :: chain_before V l'
  end.

(** [st_three] after the middle record has been raised again. *)
Definition st_three_after : State :=
  mkState [mkExc (JCls SyntaxError) [JStr "a"] JNull JNull;
           mkExc (JCls TabError) [JStr "b"] (ExcRef 2) (JStr "tb");
           mkExc (JCls MemoryError) [] JNull JNull]
          (JCls TabError) (ExcRef 1) (JStr "tb") (Some (ExcRef 1))
          (Some (ExcRef 1)).

(** What a raise from [st] to [st'] keeps of the records of [st], where
    [cut] is the address of the one record the scan has cut loose, if
    there is one: each record is still there with its class, arguments and
    traceback; the record at [cut] had the record now active as its
    context and has none now; every other record, the one now active
    apart, is as it was, also when its context is the record now
    active. *)
Definition kept (cut : option nat) (st st' : State) : Prop :=
  forall a ob, heap st !! a = Some ob ->
  exists ob',
    heap st' !! a = Some ob' /\
    exc_class ob' = exc_class ob /\ exc_args ob' = exc_args ob /\
    exc_tb ob' = exc_tb ob /\
    (exc_value st' <> ExcRef a ->
       if decide (cut = Some a)
       then exc_context ob = exc_value st' /\ ob' = set_context JNull ob
       else ob' = ob).

(** Three records chained 2, 1, 0; the last one raised is active, and the
    name [value] denotes the middle one. *)
Definition st_three : State :=
  mkState [mkExc (JCls SyntaxError) [JStr "a"] JNull JNull;
           mkExc (JCls TabError) [JStr "b"] (ExcRef 0) (JStr "tb");
           mkExc (JCls MemoryError) [] (ExcRef 1) JNull]
          (JCls MemoryError) (ExcRef 2) JNull (Some (ExcRef 1)) None.

(** [st_three] with a fourth record that is on no chain of the others and
    has the middle record as its context; and the same after the middle
    record has been raised again. *)
Definition st_four : State :=
  mkState [mkExc (JCls SyntaxError) [JStr "a"] JNull JNull;
           mkExc (JCls TabError) [JStr "b"] (ExcRef 0) (JStr "tb");
           mkExc (JCls MemoryError) [] (ExcRef 1) JNull;
           mkExc (JCls KeyboardInterrupt) [] (ExcRef 1) JNull]
          (JCls MemoryError) (ExcRef 2) JNull (Some (ExcRef 1)) None.

Definition st_four_after : State :=
  mkState [mkExc (JCls SyntaxError) [JStr "a"] JNull JNull;
           mkExc (JCls TabError) [JStr "b"] (ExcRef 2) (JStr "tb");
           mkExc (JCls MemoryError) [] JNull JNull;
           mkExc (JCls KeyboardInterrupt) [] (ExcRef 1) JNull]
          (JCls TabError) (ExcRef 1) (JStr "tb") (Some (ExcRef 1))
          (Some (ExcRef 1)).

End Chainer.

Module Classifier.
Import Chainer.

Section classifier.
Context `{ErrCodes} `{TokenTypes}.

(** How the [switch] of lines 110 to 183 is left: by [return], or by
    [break] with the exception kind, the message, the decode error object
    if there is one, and the exception state. *)
Inductive Switch :=
  | Return (r : Result State)
  | Break (errtype : pyclass) (msg : string) (msg_obj : jsval) (st : State).

Definition switch_on_error (fuel : nat) (err : ErrorDetail) (st : State)
  : Switch :=
  let e := error err in
  if (e =? E_ERROR)%Z then Return (Ok st)
  else if (e =? E_SYNTAX)%Z then
    if (expected err =? INDENT)%Z then
      Break IndentationError "expected an indented block" JNull st
    else if (token err =? INDENT)%Z then
      Break IndentationError "unexpected indent" JNull st
    else if (token err =? DEDENT)%Z then
      Break IndentationError "unexpected unindent" JNull st
    else Break SyntaxError "invalid syntax" JNull st
  else if (e =? E_TOKEN)%Z then
    Break SyntaxError "invalid token" JNull st
  else if (e =? E_EOFS)%Z then
    Break SyntaxError "EOF while scanning triple-quoted string literal"
          JNull st
  else if (e =? E_EOLS)%Z then
    Break SyntaxError "EOL while scanning string literal" JNull st
  else if (e =? E_INTR)%Z then
    if negb (truthy (PyErr_Occurred st))
    then Return (PyErr_SetNone fuel (JCls KeyboardInterrupt) st)
    else Return (Ok st)
  else if (e =? E_NOMEM)%Z then
    Return (PyErr_SetNone fuel (JCls MemoryError) st)
  else if (e =? E_EOF)%Z then
    Break SyntaxError "unexpected EOF while parsing" JNull st
  else if (e =? E_TABSPACE)%Z then
    Break TabError "inconsistent use of tabs and spaces in indentation"
          JNull st
  else if (e =? E_OVERFLOW)%Z then
    Break SyntaxError "expression too long" JNull st
  else if (e =? E_DEDENT)%Z then
    Break IndentationError
          "unindent does not match any outer indentation level" JNull st
  else if (e =? E_TOODEEP)%Z then
    Break IndentationError "too many levels of indentation" JNull st
  else if (e =? E_DECODE)%Z then
    let '((_, value, _), st1) := PyErr_Fetch st in
    Break SyntaxError "unknown decode error"
          (if negb (is_null value) then value else JNull) st1
  else if (e =? E_LINECONT)%Z then
    Break SyntaxError
          "unexpected character after line continuation character" JNull st
  else if (e =? E_IDENTIFIER)%Z then
    Break SyntaxError "invalid character in identifier" JNull st
  else if (e =? E_BADSINGLE)%Z then
    Break SyntaxError
          "multiple statements found while compiling a single statement"
          JNull st
  else Break SyntaxError "unknown parsing error" JNull st.

(** Lines 186 to 191: [v = [err.filename, err.lineno, offset, errtext]]. *)
Definition position (err : ErrorDetail) : jsval :=
  let errtext :=
    match text err with
    | Some t => if String.eqb t "" then JNull else JStr t
    | None => JNull
    end in
  JArr [JStr (filename err); JNum (lineno err); JNum (offset err); errtext].

(** Lines 192 to 196: [w]. *)
Definition payload (msg : string) (msg_obj : jsval) (err : ErrorDetail)
  : jsval :=
  if truthy msg_obj then JArr [msg_obj; position err]
  else JArr [JStr msg; position err].

(** [err_input], lines 100 to 199.  The two [console.log] calls are left
    out. *)
Definition err_input (fuel : nat) (err : ErrorDetail) (st : State)
  : Result State :=
  match switch_on_error fuel err st with
  | Return r => r
  | Break errtype msg msg_obj st1 =>
      PyErr_SetObject fuel (JCls errtype) (payload msg msg_obj err) st1
  end.

(** The error kinds that have a [case] of their own in the [switch]. *)
Definition handled : list Z :=
  [E_ERROR; E_SYNTAX; E_TOKEN; E_EOFS; E_EOLS; E_INTR; E_NOMEM; E_EOF;
   E_TABSPACE; E_OVERFLOW; E_DEDENT; E_TOODEEP; E_DECODE; E_LINECONT;
   E_IDENTIFIER; E_BADSINGLE].

(** The error kinds the table of the design document enumerates: OK,
    SYNTAX, TOKEN, EOF_IN_TRIPLE_STRING, EOL_IN_STRING, INTERRUPTED,
    OUT_OF_MEMORY, END_OF_FILE, INCONSISTENT_TABS, EXPRESSION_TOO_LONG,
    DEDENT_MISMATCH, TOO_DEEP_INDENT, DECODE_ERROR, LINE_CONTINUATION,
    BAD_IDENTIFIER_CHAR and MULTIPLE_STATEMENTS_IN_SINGLE_INPUT. *)
Definition tabled : list Z :=
  [E_OK; E_SYNTAX; E_TOKEN; E_EOFS; E_EOLS; E_INTR; E_NOMEM; E_EOF;
   E_TABSPACE; E_OVERFLOW; E_DEDENT; E_TOODEEP; E_DECODE; E_LINECONT;
   E_IDENTIFIER; E_BADSINGLE].

(** Line 198: the arguments [errtype] and [w] of the call of
    [PyErr_SetObject] that ends [err_input], and the exception state in
    which the call is made; [None] when the [switch] was left by
    [return]. *)
Definition final_call (fuel : nat) (err : ErrorDetail) (st : State)
  : option (jsval * jsval * State) :=
  match switch_on_error fuel err st with
  | Return _ => None
  | Break errtype msg msg_obj st1 =>
      Some (JCls errtype, payload msg msg_obj err, st1)
  end.

End classifier.

(** *** Records and states used as examples, with CPython's numbers *)

Definition err_E_ERROR : ErrorDetail :=
  mkErr 17 1 0 None (-1) (-1) "<string>".

Definition err_E_OK : ErrorDetail :=
  mkErr 10 1 0 None (-1) (-1) "<string>".

Definition err_E_INTR : ErrorDetail :=
  mkErr 12 1 0 None (-1) (-1) "<string>".

Definition err_expected_indent : ErrorDetail :=
  mkErr 14 2 0 (Some "x = 1") 1 5 "<string>".

Definition unknown_error_payload : jsval :=
  JArr [JStr "unknown parsing error";
        JArr [JStr "<string>"; JNum 1; JNum 0; JNull]].

Definition err_decode : ErrorDetail :=
  mkErr 22 3 7 (Some "caf") (-1) (-1) "<string>".

(** A decode error has been captured, and [value] names the payload the
    classifier is about to build. *)
Definition st_decode_failed : State :=
  mkState [] (JCls SystemError) (JStr "bad byte") JNull
          (Some (JArr [JStr "bad byte";
                       JArr [JStr "<string>"; JNum 3; JNum 7; JStr "caf"]]))
          None.

(** Nothing active, and the name [value] bound to [w]. *)
Definition st_bound (w : jsval) : State :=
  mkState [] JNull JNull JNull (Some w) None.

End Classifier.

Module Driver.

(** *** The collaborators *)

(** The fields of the Token Source that [parsetok] reads or writes;
    [tok_state] is whatever else the tokenizer keeps. *)
Record Tokenizer (TokState : Type) := mkTok {
  tok_done : Z;
  tok_indent : Z;
  tok_pendin : Z;
  tok_buf : list ascii;
  tok_cur : Z;
  tok_inp : Z;
  tok_line_start : Z;
  tok_lineno : Z;
  tok_encoding : option string;
  tok_filename : string;
  tok_state : TokState
}.
Arguments mkTok {TokState}.
Arguments tok_done {TokState}.
Arguments tok_indent {TokState}.
Arguments tok_pendin {TokState}.
Arguments tok_buf {TokState}.
Arguments tok_cur {TokState}.
Arguments tok_inp {TokState}.
Arguments tok_line_start {TokState}.
Arguments tok_lineno {TokState}.
Arguments tok_encoding {TokState}.
Arguments tok_filename {TokState}.
Arguments tok_state {TokState}.

(** The Grammar Engine: the tree it has built, and the rest of it. *)
Record Parser (Tree ParserState : Type) := mkParser {
  p_tree : option Tree;
  p_state : ParserState
}.
Arguments mkParser {Tree ParserState}.
Arguments p_tree {Tree ParserState}.
Arguments p_state {Tree ParserState}.

(** [new _compile.Tokenizer(s, exec_input)] and [tok.get_token()], which
    answers [[type, a, b]] and moves the tokenizer on. *)
Class TokenSource (TokState : Type) := {
  Tokenizer_new : string -> bool -> Tokenizer TokState;
  get_token : Tokenizer TokState -> (Z * Z * Z) * Tokenizer TokState
}.

(** [new Parser(g, start)] and
    [ps.add_token(type, str, lineno, col_offset, expected)], which answers
    an error code and moves the parser on. *)
Class GrammarEngine (Grammar Tree ParserState : Type) := {
  Parser_new : Grammar -> Z -> Parser Tree ParserState;
  add_token : Parser Tree ParserState -> Z -> string -> Z -> Z -> Z ->
              Z * Parser Tree ParserState
}.

(** What [parsetok] returns: the tree of the engine, or that tree under
    an encoding declaration node. *)
Inductive Node (Tree : Type) :=
  | Parsed (t : Tree)
  | EncodingNode (n_type : Z) (n_str : string) (n_nchildren : Z)
                 (n_child : Node Tree).
Arguments Parsed {Tree}.
Arguments EncodingNode {Tree}.

(** *** Buffers *)

(** [arr.slice(from, to)] on integer arguments. *)
Definition slice {A} (arr : list A) (from to : Z) : list A :=
  let len := Z.of_nat (length arr) in
  let k := if (from <? 0)%Z then Z.max (len + from) 0 else Z.min from len in
  let final := if (to <? 0)%Z then Z.max (len + to) 0 else Z.min to len in
  take (Z.to_nat (final - k)) (drop (Z.to_nat k) arr).

(** [arr.join(sep)] on an array of one-character strings. *)
Fixpoint join (sep : string) (arr : list ascii) : string :=
  match arr with
  | [] => ""
  | [c] => String c ""
  | c :: arr' => String c (sep +:+ join sep arr')
  end.

Definition NUL : string := String (ascii_of_nat 0) "".

(** Lines 306 to 311.  Adding a string to an array joins the array with
    commas first. *)
Definition token_str (buf : list ascii) (a b : Z) : string :=
  (if (0 <? b - a)%Z then join "," (slice buf a b) else "") +:+ NUL.

(** [tok.buf[i]]: [None] is [undefined]. *)
Definition buf_from (buf : list ascii) (i : Z) : list ascii :=
  if (i <? 0)%Z then [] else drop (Z.to_nat i) buf.

Definition is_blank (c : ascii) : bool :=
  (c =? " ")%char || (c =? "009")%char || (c =? "010")%char
  || (c =? "012")%char.

(** Lines 342 to 344, on the part of the buffer from the cursor on: the
    head of [rest] is [tok.buf[tok.cur]]. *)
Fixpoint skip_blank (rest : list ascii) (cur : Z) : list ascii * Z :=
  match rest with
  | c :: rest' =>
      if is_blank c then skip_blank rest' (cur + 1) else (rest, cur)
  | [] => ([], cur)
  end.

(** Lines 357 to 359. *)
Fixpoint skip_comment (rest : list ascii) (cur : Z) : list ascii * Z :=
  match rest with
  | c :: rest' =>
      if negb (c =? "010")%char then skip_comment rest' (cur + 1)
      else (rest, cur)
  | [] => ([], cur)
  end.

(** Lines 341 to 360: [Some (true, cur)] when the loop is left at line
    347, [Some (false, cur)] when it is left at line 353. *)
Fixpoint trailing_loop (fuel : nat) (rest : list ascii) (cur : Z)
  : option (bool * Z) :=
  match fuel with
  | O => None
  | S fuel' =>
      let '(rest1, cur1) := skip_blank rest cur in
      match rest1 with
      | [] => Some (true, cur1)
      | c :: _ =>
          if negb (c =? "#")%char then Some (false, cur1)
          else
            let '(rest2, cur2) := skip_comment rest1 cur1 in
            trailing_loop fuel' rest2 cur2
      end
  end.

(** The characters the design document calls whitespace: space, tab,
    newline and form feed. *)
Definition whitespace : list ascii :=
  [" "; "009"; "010"; "012"]%char.

(** What the design document allows after a single statement: any
    combination of whitespace and of comments that run from [#] to the end
    of the line, or to the end of the buffer. *)
Inductive trailing_ok : list ascii -> Prop :=
  | trailing_end :
      trailing_ok []
  | trailing_blank c rest :
      c ∈ whitespace -> trailing_ok rest -> trailing_ok (c :: rest)
  | trailing_comment_eof body :
      "010"%char ∉ body -> trailing_ok ("#"%char :: body)
  | trailing_comment body rest :
      "010"%char ∉ body -> trailing_ok rest ->
      trailing_ok ("#"%char :: body ++ "010"%char :: rest).

(** A stretch of whitespace and of whole comments, each one with the
    newline that ends it. *)
Inductive skipped : list ascii -> Prop :=
  | skipped_end :
      skipped []
  | skipped_blank c rest :
      c ∈ whitespace -> skipped rest -> skipped (c :: rest)
  | skipped_comment body rest :
      "010"%char ∉ body -> skipped rest ->
      skipped ("#"%char :: body ++ "010"%char :: rest).

Section driver.
Context `{ErrCodes} `{TokenTypes}.
Context {TokState Grammar Tree ParserState : Type}.
Context `{!TokenSource TokState} `{!GrammarEngine Grammar Tree ParserState}.

#[local] Abbreviation Tok := (Tokenizer TokState).
#[local] Abbreviation Ps := (Parser Tree ParserState).

Definition set_dedents (t : Tok) : Tok :=
  mkTok (tok_done t) 0 (- tok_indent t) (tok_buf t) (tok_cur t) (tok_inp t)
        (tok_line_start t) (tok_lineno t) (tok_encoding t) (tok_filename t)
        (tok_state t).

Definition set_cur (c : Z) (t : Tok) : Tok :=
  mkTok (tok_done t) (tok_indent t) (tok_pendin t) (tok_buf t) c (tok_inp t)
        (tok_line_start t) (tok_lineno t) (tok_encoding t) (tok_filename t)
        (tok_state t).

Definition set_encoding (e : option string) (t : Tok) : Tok :=
  mkTok (tok_done t) (tok_indent t) (tok_pendin t) (tok_buf t) (tok_cur t)
        (tok_inp t) (tok_line_start t) (tok_lineno t) e (tok_filename t)
        (tok_state t).

Definition set_filename (f : string) (t : Tok) : Tok :=
  mkTok (tok_done t) (tok_indent t) (tok_pendin t) (tok_buf t) (tok_cur t)
        (tok_inp t) (tok_line_start t) (tok_lineno t) (tok_encoding t) f
        (tok_state t).

(** *** The token loop, lines 282 to 327 *)

(** Lines 293 to 305: the token handed on, the flag [started], and the
    tokenizer. *)
Definition end_of_input (type : Z) (started : bool) (tok : Tok)
  : Z * bool * Tok :=
  if (type =? ENDMARKER)%Z && started then
    (NEWLINE, false,
     if negb (tok_indent tok =? 0)%Z then set_dedents tok else tok)
  else (type, true, tok).

(** Lines 313 to 318. *)
Definition col_offset (a line_start : Z) : Z :=
  if (a >=? line_start)%Z then (a - line_start)%Z else (-1)%Z.

(** What one round hands to the Grammar Engine. *)
Record Feed := mkFeed {
  feed_type : Z;
  feed_str : string;
  feed_lineno : Z;
  feed_col : Z;
  feed_expected : Z
}.

(** Lines 283 to 318: the next token of the Token Source made ready for
    the engine; no feed when it is the error token. *)
Definition next_feed (err_ret : ErrorDetail) (tok : Tok) (started : bool)
  : Tok * option (Feed * bool) :=
  let '((type, a, b), tok) := get_token tok in
  if (type =? ERRORTOKEN)%Z then (tok, None)
  else
    let '(type, started, tok) := end_of_input type started tok in
    let str := token_str (tok_buf tok) a b in
    let col := col_offset a (tok_line_start tok) in
    (tok, Some (mkFeed type str (tok_lineno tok) col (expected err_ret),
                started)).

Inductive Step :=
  | Stop (err_ret : ErrorDetail) (tok : Tok) (ps : Ps)
  | Next (err_ret : ErrorDetail) (tok : Tok) (ps : Ps) (started : bool).

(** Lines 320 to 326. *)
Definition feed_engine (f : Feed) (err_ret : ErrorDetail) (tok : Tok)
    (ps : Ps) (started : bool) : Step :=
  let '(e, ps) :=
    add_token ps (feed_type f) (feed_str f) (feed_lineno f) (feed_col f)
              (feed_expected f) in
  let err_ret := set_error e err_ret in
  if negb (e =? E_OK)%Z then
    Stop (if negb (e =? E_DONE)%Z then set_token (feed_type f) err_ret
          else err_ret)
         tok ps
  else Next err_ret tok ps started.

(** One round of the loop. *)
Definition parsetok_round (err_ret : ErrorDetail) (tok : Tok) (ps : Ps)
    (started : bool) : Step :=
  match next_feed err_ret tok started with
  | (tok, None) => Stop (set_error (tok_done tok) err_ret) tok ps
  | (tok, Some (f, started)) => feed_engine f err_ret tok ps started
  end.

Fixpoint parsetok_loop (fuel : nat) (err_ret : ErrorDetail) (tok : Tok)
    (ps : Ps) (started : bool) : option (ErrorDetail * Tok * Ps) :=
  match fuel with
  | O => None
  | S fuel' =>
      match parsetok_round err_ret tok ps started with
      | Stop err_ret tok ps => Some (err_ret, tok, ps)
      | Next err_ret tok ps started =>
          parsetok_loop fuel' err_ret tok ps started
      end
  end.

(** *** After the loop, lines 329 to 392 *)

(** Lines 329 to 364.  The names [cur] and [c] of lines 338 and 339 are
    two more undeclared globals; nothing reads them outside the scan. *)
Definition after_loop (start : Z) (err_ret : ErrorDetail) (tok : Tok)
    (ps : Ps) : option (option Tree * ErrorDetail * Tok * Ps) :=
  if (error err_ret =? E_DONE)%Z then
    let n := p_tree ps in
    let ps := mkParser None (p_state ps) in
    if (start =? single_input)%Z then
      let rest := buf_from (tok_buf tok) (tok_cur tok) in
      match trailing_loop (S (length rest)) rest (tok_cur tok) with
      | Some (true, cur) => Some (n, err_ret, set_cur cur tok, ps)
      | Some (false, cur) =>
          Some (None, set_error E_BADSINGLE err_ret, set_cur cur tok, ps)
      | None => None
      end
    else Some (n, err_ret, tok, ps)
  else Some (None, err_ret, tok, ps).

(** Lines 367 to 377.  Line 378 adds a character to the local name
    [err_ret], not to the record, and is left out. *)
Definition fill_error (err_ret : ErrorDetail) (tok : Tok) : ErrorDetail :=
  let e := if (tok_done tok =? E_EOF)%Z then E_EOF else error err_ret in
  let len := tok_inp tok in
  mkErr e (tok_lineno tok) (tok_cur tok)
        (Some (if (0 <? len)%Z then join "" (slice (tok_buf tok) 0 len)
               else ""))
        (token err_ret) (expected err_ret) (filename err_ret).

Record Parsed_ := mkParsed {
  res_n : option (Node Tree);
  res_err : ErrorDetail;
  res_tok : Tok;
  res_ps : Ps
}.

(** Lines 366 to 391. *)
Definition finish (n : option Tree) (err_ret : ErrorDetail) (tok : Tok)
    (ps : Ps) : Parsed_ :=
  match n with
  | None => mkParsed None (fill_error err_ret tok) tok ps
  | Some t =>
      match tok_encoding tok with
      | Some enc =>
          mkParsed (Some (EncodingNode encoding_decl enc 1 (Parsed t)))
                   err_ret (set_encoding None tok) ps
      | None => mkParsed (Some (Parsed t)) err_ret tok ps
      end
  end.

(** [parsetok], lines 276 to 392; [None] when the token loop has not
    ended within [fuel] rounds. *)
Definition parsetok (fuel : nat) (tok : Tok) (g : Grammar) (start : Z)
    (err_ret : ErrorDetail) (flags : Z) : option Parsed_ :=
  let ps := Parser_new g start in
  match parsetok_loop fuel err_ret tok ps false with
  | None => None
  | Some (err_ret, tok, ps) =>
      match after_loop start err_ret tok ps with
      | None => None
      | Some (n, err_ret, tok, ps) => Some (finish n err_ret tok ps)
      end
  end.

(** [parse_string_object], lines 266 to 274; [start] is the number under
    the [types.Int], and 257 is [Py_file_input] of line 18. *)
Definition parse_string_object (fuel : nat) (s : string)
    (name : option string) (g : Grammar) (start iflags : Z)
  : option Parsed_ :=
  let exec_input := (start =? 257)%Z in
  let err_ret := new_ErrorDetail name in
  let tok := set_filename (filename err_ret) (Tokenizer_new s exec_input) in
  parsetok fuel tok g start err_ret iflags.

End driver.

(** *** Collaborators that follow a script

    A Token Source that hands out the tokens of a list, then the end
    marker for ever, and that, like CPython's tokenizer, hands out one
    DEDENT for every pending dedent first; and a Grammar Engine that
    answers from a list of codes and keeps the token types it was fed.
    Both use the numbers of [cpython_errcodes] and [cpython_tokens]. *)

Definition Script : Type := list (Z * Z * Z).

Definition scripted_get_token (tok : Tokenizer Script)
  : (Z * Z * Z) * Tokenizer Script :=
  if (tok_pendin tok <? 0)%Z then
    ((@DEDENT cpython_tokens, tok_cur tok, tok_cur tok),
     mkTok (tok_done tok) (tok_indent tok) (tok_pendin tok + 1) (tok_buf tok)
           (tok_cur tok) (tok_inp tok) (tok_line_start tok) (tok_lineno tok)
           (tok_encoding tok) (tok_filename tok) (tok_state tok))
  else
    match tok_state tok with
    | t :: rest =>
        (t, mkTok (tok_done tok) (tok_indent tok) (tok_pendin tok)
                  (tok_buf tok) (tok_cur tok) (tok_inp tok)
                  (tok_line_start tok) (tok_lineno tok) (tok_encoding tok)
                  (tok_filename tok) rest)
    | [] =>
        ((@ENDMARKER cpython_tokens, tok_cur tok, tok_cur tok),
         mkTok (@E_EOF cpython_errcodes) (tok_indent tok) (tok_pendin tok)
               (tok_buf tok) (tok_cur tok) (tok_inp tok) (tok_line_start tok)
               (tok_lineno tok) (tok_encoding tok) (tok_filename tok) [])
    end.

Definition scripted_source : TokenSource Script := {|
  Tokenizer_new s exec_input :=
    mkTok (@E_OK cpython_errcodes) 0 0 (String.list_ascii_of_string s) 0
          (Z.of_nat (String.length s)) 0 1 None "" [];
  get_token := scripted_get_token
|}.

(** The answers still to give, and the token types fed so far. *)
Definition Answers : Type := list Z * list Z.

Definition scripted_add_token (ps : Parser (list Z) Answers)
    (type : Z) (str : string) (lineno col_offset expected : Z)
  : Z * Parser (list Z) Answers :=
  let fed := snd (p_state ps) ++ [type] in
  match fst (p_state ps) with
  | e :: rest =>
      (e, mkParser (if (e =? @E_DONE cpython_errcodes)%Z then Some fed
                    else p_tree ps)
                   (rest, fed))
  | [] => (@E_SYNTAX cpython_errcodes, mkParser (p_tree ps) ([], fed))
  end.

Definition scripted_engine : GrammarEngine (list Z) (list Z) Answers := {|
  Parser_new answers start := mkParser None (answers, []);
  add_token := scripted_add_token
|}.

(** *** Runs used as examples *)

(** The text [x = (]: a name, [=], [(], and then the end of the input. *)
Definition tok_open_paren : Tokenizer Script :=
  mkTok 10 0 0 (String.list_ascii_of_string "x = (") 5 5 0 1 None "<string>"
        [(1, 0, 1); (22, 2, 3); (7, 4, 5)]%Z.

(** [if x:] and an indented [y] with no newline after it: one block is
    open when the input ends. *)
Definition tok_block : Tokenizer Script :=
  mkTok 10 1 0
        (String.list_ascii_of_string "if x:" ++
         "010"%char :: String.list_ascii_of_string "  y")
        9 9 6 2 None "<string>"
        [(1, 0, 2); (1, 3, 4); (11, 4, 5); (4, 5, 6); (5, 6, 8); (1, 8, 9)]%Z.

(** At the end marker with two blocks open. *)
Definition tok_two_open : Tokenizer Script :=
  mkTok 10 2 0 [] 0 0 0 3 None "<string>" [].

(** A token that starts before the recorded start of its line. *)
Definition tok_before_line : Tokenizer Script :=
  mkTok 10 0 0 (String.list_ascii_of_string "ab") 0 2 5 1 None "<string>"
        [(1, 3, 4)]%Z.

(** The text [s] begins with the statement [x]: a name and the NEWLINE
    that ends the statement, with the cursor after the name.  What is left
    in the buffer from the cursor on is blanks and a comment, or a second
    statement. *)
Definition tok_after_statement (s : string) : Tokenizer Script :=
  mkTok 10 0 0 (String.list_ascii_of_string s) 1
        (Z.of_nat (String.length s)) 0 1 None "<string>"
        [(1, 0, 1); (4, 1, 1)]%Z.

Definition err_done : ErrorDetail :=
  mkErr 16 0 0 None (-1) (-1) "<string>".

(** The fields of the record that the token loop does not write. *)
Definition same_position (e1 e2 : ErrorDetail) : Prop :=
  lineno e1 = lineno e2 /\ offset e1 = offset e2 /\ text e1 = text e2 /\
  expected e1 = expected e2 /\ filename e1 = filename e2.


(** One name, then the end of the input. *)
Definition tok_name : Tokenizer Script :=
  mkTok 10 0 0 (String.list_ascii_of_string "x") 1 1 0 1 (Some "utf-8")
        "<string>" [(1, 0, 1)]%Z.

End Driver.

(** ** The compiler façade, lines 222 to 264 *)

Module Facade.
Import Chainer Classifier Driver.

(** What a call of the façade does: it returns, it throws one of the two
    JavaScript errors that occur in the file, or a loop below it is still
    running when the fuel is spent.  [NotImplementedError] carries the
    exception state at the throw. *)
Inductive Outcome (A : Type) :=
  | Returned (a : A) (st : State)
  | ThrownJs (e : JsError)
  | NotImplementedError (msg : string) (st : State)
  | Unfinished.
Arguments Returned {A} a st.
Arguments ThrownJs {A} e.
Arguments NotImplementedError {A} msg st.
Arguments Unfinished {A}.

(** The compiler flags object: its field [cf_flags]. *)
Record CompilerFlags := mkFlags { cf_flags : Z }.

(** JavaScript's conversion of a number to a 32-bit integer, and the
    operators [|] and [&] on integers. *)
Definition ToInt32 (z : Z) : Z := ((z + 2 ^ 31) mod 2 ^ 32 - 2 ^ 31)%Z.

Definition js_or (a b : Z) : Z := Z.lor (ToInt32 a) (ToInt32 b).

Definition js_and (a b : Z) : Z := Z.land (ToInt32 a) (ToInt32 b).

(** What the façade uses and the file does not define: the grammar table
    of [graminit], the mask [PyCF_MASK], and [ast_from_node_object]. *)
Class AstBuilder (Grammar Tree Mod : Type) := {
  PyParser_Grammar : Grammar;
  PyCF_MASK : Z;
  ast_from_node_object :
    Node Tree -> CompilerFlags -> option string -> State -> Outcome Mod
}.

Section facade.
Context `{ErrCodes} `{TokenTypes}.
Context {TokState Grammar Tree ParserState Mod : Type}.
Context `{!TokenSource TokState} `{!GrammarEngine Grammar Tree ParserState}.
Context `{!AstBuilder Grammar Tree Mod}.

(** [ast_from_string_object], lines 242 to 264: the module, [None] for
    [null], and the flags object as it is left. *)
Definition ast_from_string_object (fuel : nat) (str : string)
    (name : option string) (start : Z) (flags : option CompilerFlags)
    (st : State) : Outcome (option Mod * CompilerFlags) :=
  let iflags := 0%Z in
  match parse_string_object fuel str name PyParser_Grammar start iflags with
  | None => Unfinished
  | Some ret =>
      let flags :=
        match flags with
        | Some f => f
        | None => mkFlags 0
        end in
      match res_n ret with
      | Some n =>
          let flags :=
            mkFlags (js_or (cf_flags flags) (js_and iflags PyCF_MASK)) in
          match ast_from_node_object n flags name st with
          | Returned m st' => Returned (Some m, flags) st'
          | ThrownJs e => ThrownJs e
          | NotImplementedError msg st' => NotImplementedError msg st'
          | Unfinished => Unfinished
          end
      | None =>
          match err_input fuel (res_err ret) st with
          | Ok st' => Returned (None, flags) st'
          | Throw e => ThrownJs e
          | OutOfFuel => Unfinished
          end
      end
  end.



End facade.

(** A builder that hands the tree back as the module; its grammar is the
    list of answers of the scripted engine. *)
Definition scripted_builder (answers : list Z)
  : AstBuilder (list Z) (list Z) (Node (list Z)) := {|
  PyParser_Grammar := answers;
  PyCF_MASK := 7680;
  ast_from_node_object n flags name st := Returned n st
|}.

End Facade.

(** * Properties *)

(** ** The exception chainer *)

Module ChainerFacts.
Import Chainer.

Lemma chain_det h v l1 :
  chain h v l1 -> forall l2, chain h v l2 -> l1 = l2.
Proof.
  induction 1 as [v Hv | a ob l Ha Hc IH]; intros l2 H2; inversion H2; subst.
  - reflexivity.
  - simpl in Hv. congruence.
  - simpl in *. congruence.
  - f_equal. apply IH. congruence.
Qed.

Lemma chain_suffix h v l :
  chain h v l -> forall a, a ∈ l ->
  exists l2, chain h (ExcRef a) l2 /\ length l2 <= length l.
Proof.
  induction 1 as [v Hv | b ob l Hb Hc IH]; intros a Ha.
  - inversion Ha.
  - apply elem_of_cons in Ha as [-> | Ha].
    + exists (b :: l). split; [econstructor; eauto | lia].
    + destruct (IH a Ha) as (l2 & H2 & Hlen). exists l2. split; [done|]. simpl. lia.
Qed.

Lemma chain_NoDup h v l : chain h v l -> NoDup l.
Proof.
  induction 1 as [v Hv | a ob l Ha Hc IH]; [constructor|].
  apply NoDup_cons. split; [|done].
  intros Hin. destruct (chain_suffix _ _ _ Hc a Hin) as (l2 & H2 & Hlen).
  assert (a :: l = l2) as <- by (eapply chain_det; [econstructor|]; eauto).
  simpl in Hlen. lia.
Qed.

(* set_context *)
Lemma chain_alter_notin h f p v l :
  chain h v l -> p ∉ l -> chain (alter f p h) v l.
Proof.
  induction 1 as [v Hv | a ob l Ha Hc IH]; intros Hp.
  - constructor. destruct v; simpl in *; try done.
    destruct (decide (p = a)) as [->|Hne].
    + by rewrite list_lookup_alter_eq, Hv.
    + by rewrite list_lookup_alter_ne.
  - apply not_elem_of_cons in Hp as [Hne Hp].
    econstructor; [by rewrite list_lookup_alter_ne | auto].
Qed.

Lemma chain_set_context h p c lc :
  chain (PyException_SetContext h (ExcRef p) c) c lc ->
  forall v l, chain h v l ->
  exists l', chain (PyException_SetContext h (ExcRef p) c) v l'.
Proof.
  simpl. intros Hc v l. induction 1 as [v Hv | a ob l Ha Hch IH].
  - exists []. constructor. destruct v; simpl in *; try done.
    destruct (decide (p = a)) as [->|Hne].
    + by rewrite list_lookup_alter_eq, Hv.
    + by rewrite list_lookup_alter_ne.
  - destruct (decide (p = a)) as [->|Hne].
    + exists (a :: lc). apply (chain_step _ _ (set_context c ob)); [|exact Hc].
      by rewrite list_lookup_alter_eq, Ha.
    + destruct IH as [l' IH]. exists (a :: l').
      econstructor; [|exact IH]. by rewrite list_lookup_alter_ne.
Qed.

Lemma wf_heap_unlink h p :
  wf_heap h -> wf_heap (PyException_SetContext h (ExcRef p) JNull).
Proof.
  intros Hwf v. destruct (Hwf v) as [l Hl].
  eapply chain_set_context; [|exact Hl]. by constructor.
Qed.

Lemma wf_heap_link h p c lc :
  wf_heap h -> chain h c lc -> p ∉ lc ->
  wf_heap (PyException_SetContext h (ExcRef p) c).
Proof.
  intros Hwf Hc Hp v. destruct (Hwf v) as [l Hl].
  eapply chain_set_context; [|exact Hl]. by apply chain_alter_notin.
Qed.

Lemma wf_heap_alloc h ob :
  exc_context ob = JNull -> wf_heap h -> wf_heap (h ++ [ob]).
Proof.
  intros Hob Hwf v. destruct (Hwf v) as [l Hl].
  induction Hl as [v Hv | a ob' l Ha Hch [l' IH]].
  - destruct v; try (exists []; by constructor).
    simpl in Hv. destruct (decide (a = length h)) as [->|Hne].
    + exists [length h]. econstructor.
      * by apply list_lookup_middle.
      * rewrite Hob. by constructor.
    + exists []. constructor. simpl. apply lookup_ge_None.
      apply lookup_ge_None in Hv. rewrite length_app. simpl. lia.
  - exists (a :: l'). econstructor; [|exact IH]. by apply lookup_app_l_Some.
Qed.

Lemma unlink_loop_mono fuel h o value r :
  unlink_loop fuel h o value = Ok r ->
  forall fuel', fuel <= fuel' -> unlink_loop fuel' h o value = Ok r.
Proof.
  revert o. induction fuel as [|fuel IH]; intros o Hr fuel' Hle; [discriminate|].
  destruct fuel' as [|fuel']; [lia|]. simpl in *.
  destruct (truthy _); [|done]. destruct (js_eq _ _); [done|].
  apply IH; [done | lia].
Qed.

Lemma truthy_instance h v : is_Some (instance h v) -> truthy v = true.
Proof. intros [ob Hob]. by destruct v. Qed.

Lemma GetContext_instance h v :
  PyException_GetContext h v =
    match instance h v with Some ob => exc_context ob | None => JNull end.
Proof. by destruct v. Qed.

(** The scan of lines 83 to 91 on a finite chain. *)
Lemma unlink_loop_chain h V o l :
  chain h o l -> o <> ExcRef V -> wf_heap h ->
  forall fuel, length l < fuel ->
  exists h1 c l1,
    unlink_loop fuel h o (ExcRef V) = Ok (h1, c) /\
    wf_heap h1 /\ chain h1 o l1 /\ (V ∉ l1) /\
    (forall b, b ∉ l -> h1 !! b = h !! b) /\
    unlink_effect h V l h1.
Proof.
  induction 1 as [v Hv | a ob l Ha Hc IH]; intros Hne Hwf fuel Hf.
  - destruct fuel as [|fuel]; [lia|]. simpl.
    rewrite GetContext_instance, Hv. simpl.
    exists h, JNull, [].
    split; [done|]. split; [done|]. split; [by constructor|].
    split; [by apply not_elem_of_nil|]. split; [done|].
    left. split; [by apply not_elem_of_nil | done].
  - destruct fuel as [|fuel]; [simpl in Hf; lia|]. simpl in Hf.
    assert (a <> V) as HaV by congruence.
    assert (a ∉ l) as Hal.
    { assert (NoDup (a :: l)) as Hnd
        by (eapply chain_NoDup; econstructor; eauto).
      by apply NoDup_cons in Hnd as [? _]. }
    cbn [unlink_loop]. cbn [PyException_GetContext]. rewrite Ha.
    destruct (truthy (exc_context ob)) eqn:Ht.
    + unfold js_eq. case_bool_decide as Heq.
      * exists (PyException_SetContext h (ExcRef a) JNull), (exc_context ob), [a].
        split; [done|]. split; [by apply wf_heap_unlink|].
        split; [|split; [|split]].
        -- simpl. apply (chain_step _ _ (set_context JNull ob)).
           ++ by rewrite list_lookup_alter_eq, Ha.
           ++ by constructor.
        -- by apply not_elem_of_cons; split; [congruence | apply not_elem_of_nil].
        -- intros b Hb. apply not_elem_of_cons in Hb as [Hb _].
           simpl. by rewrite list_lookup_alter_ne.
        -- right. exists a. split; [by left|]. split; [|done].
           simpl. by rewrite Ha.
      * destruct (IH Heq Hwf fuel ltac:(lia))
          as (h1 & c & l1 & Hrun & Hwf1 & Hc1 & HV & Hsame & Heff).
        exists h1, c, (a :: l1). split; [done|]. split; [done|].
        split; [|split; [|split]].
        -- econstructor; [|exact Hc1]. by rewrite Hsame.
        -- by apply not_elem_of_cons.
        -- intros b Hb. apply not_elem_of_cons in Hb as [_ Hb]. auto.
        -- destruct Heff as [[HVl ->] | (p & Hp & Hctx & ->)].
           ++ left. split; [by apply not_elem_of_cons | done].
           ++ right. exists p. split; [by right | done].
    + assert (V ∉ a :: l) as HVl.
      { inversion Hc as [v Hv | a' ob' l' Ha' Hc' Hctx]; subst.
        - by apply not_elem_of_cons; split; [congruence | apply not_elem_of_nil].
        - rewrite <- Hctx in Ht. discriminate. }
      exists h, (exc_context ob), (a :: l).
      split; [done|]. split; [done|]. split; [by econstructor|].
      split; [done|]. split; [done|]. by left.
Qed.

Lemma chain_valid h v l : chain h v l -> forall a, a ∈ l -> a < length h.
Proof.
  induction 1 as [v Hv | b ob l Hb Hc IH]; intros a Ha.
  - inversion Ha.
  - apply elem_of_cons in Ha as [-> | Ha]; [by eapply lookup_lt_Some | auto].
Qed.

Lemma chain_length h v l : chain h v l -> length l <= length h.
Proof.
  intros Hc.
  assert (length l <= length (seq 0 (length h))) as Hle.
  { apply submseteq_length, NoDup_submseteq; [by eapply chain_NoDup|].
    intros a Ha. apply elem_of_seq.
    pose proof (chain_valid _ _ _ Hc a Ha). lia. }
  by rewrite length_seq in Hle.
Qed.

Lemma context_chain_complete h v l :
  chain h v l -> forall fuel, length l <= fuel -> context_chain fuel h v = Some l.
Proof.
  induction 1 as [v Hv | a ob l Ha Hc IH]; intros fuel Hf.
  - destruct fuel; simpl; rewrite Hv; reflexivity.
  - destruct fuel; simpl in *; [lia|]. rewrite Ha. rewrite IH by lia. reflexivity.
Qed.

Lemma unlink_loop_total h V o :
  wf_heap h -> o <> ExcRef V ->
  forall fuel, length h < fuel ->
  exists r, unlink_loop fuel h o (ExcRef V) = Ok r.
Proof.
  intros Hwf Hne fuel Hf. destruct (Hwf o) as [l Hl].
  pose proof (chain_length _ _ _ Hl).
  destruct (unlink_loop_chain h V o l Hl Hne Hwf fuel ltac:(lia))
    as (h1 & c & l1 & Hrun & _). eauto.
Qed.

Lemma unlink_loop_sound h V o fuel h1 c :
  wf_heap h -> o <> ExcRef V ->
  unlink_loop fuel h o (ExcRef V) = Ok (h1, c) ->
  wf_heap h1 /\
  (exists l1, chain h1 o l1 /\ (V ∉ l1)) /\
  (exists l, chain h o l /\ unlink_effect h V l h1).
Proof.
  intros Hwf Hne Hrun. destruct (Hwf o) as [l Hl].
  destruct (unlink_loop_chain h V o l Hl Hne Hwf (fuel + S (length l)) ltac:(lia))
    as (h1' & c' & l1 & Hrun' & Hwf1 & Hc1 & HV & _ & Heff).
  pose proof (unlink_loop_mono _ _ _ _ _ Hrun (fuel + S (length l))
                ltac:(lia)) as Hrun2.
  rewrite Hrun' in Hrun2. injection Hrun2 as <- <-. eauto 10.
Qed.

Lemma js_eq_true x y : js_eq x y = true <-> x = y.
Proof. unfold js_eq. by rewrite bool_decide_eq_true. Qed.

Lemma js_eq_false x y : js_eq x y = false <-> x <> y.
Proof. unfold js_eq. by rewrite bool_decide_eq_false. Qed.

Lemma chain_and_install_sound fuel exception E V st st' :
  wf_heap (heap st) ->
  chain_and_install fuel exception E (ExcRef V) st = Ok st' ->
  wf_heap (heap st').
Proof.
  intros Hwf. unfold chain_and_install.
  destruct (js_eq E (ExcRef V)) eqn:Heq; simpl.
  - intros [= <-]. done.
  - apply js_eq_false in Heq.
    destruct (unlink_loop _ _ _ _) as [[h1 c]| |] eqn:Hrun; simpl; try discriminate.
    intros [= <-]. simpl.
    destruct (unlink_loop_sound _ _ _ _ _ _ Hwf Heq Hrun) as (Hwf1 & (l1 & Hc1 & HV) & _).
    by eapply wf_heap_link.
Qed.

Lemma chain_and_install_total fuel exception E V st :
  wf_heap (heap st) -> length (heap st) < fuel ->
  exists st', chain_and_install fuel exception E (ExcRef V) st = Ok st'.
Proof.
  intros Hwf Hf. unfold chain_and_install.
  destruct (js_eq E (ExcRef V)) eqn:Heq; simpl; [eauto|].
  apply js_eq_false in Heq.
  destruct (unlink_loop_total _ V E Hwf Heq fuel Hf) as [r ->]. simpl. eauto.
Qed.

Lemma instance_check_ref h v :
  PyExceptionInstance_Check h v = true -> exists a, v = ExcRef a.
Proof. destruct v; try discriminate. eauto. Qed.

Lemma set_object_body_sound fuel exception o st st' :
  wf_heap (heap st) ->
  set_object_body fuel exception o st = Ok st' ->
  wf_heap (heap st').
Proof.
  intros Hwf. unfold set_object_body.
  destruct (g_value st) as [value|]; [|discriminate].
  destruct (negb (is_null (exc_value st)) && negb (is_None (exc_value st))).
  - destruct (is_null value || negb (PyExceptionInstance_Check (heap st) value)) eqn:Hn.
    + unfold PyEval_CallObject.
      destruct exception; try (intros [= <-]; exact Hwf).
      apply chain_and_install_sound. simpl. by apply wf_heap_alloc.
    + apply orb_false_iff in Hn as [_ Hn]. apply negb_false_iff in Hn.
      destruct (instance_check_ref _ _ Hn) as [V ->].
      by apply chain_and_install_sound.
  - intros [= <-]. exact Hwf.
Qed.

Lemma set_object_body_total fuel exception o st :
  wf_heap (heap st) -> S (length (heap st)) < fuel ->
  set_object_body fuel exception o st <> OutOfFuel.
Proof.
  intros Hwf Hf. unfold set_object_body.
  destruct (g_value st) as [value|]; [|discriminate].
  destruct (negb (is_null (exc_value st)) && negb (is_None (exc_value st))); [|discriminate].
  destruct (is_null value || negb (PyExceptionInstance_Check (heap st) value)) eqn:Hn.
  - unfold PyEval_CallObject. destruct exception; try discriminate.
    edestruct chain_and_install_total as [st' ->]; [| |discriminate].
    + simpl. by apply wf_heap_alloc.
    + simpl. rewrite length_app. simpl. lia.
  - apply orb_false_iff in Hn as [_ Hn]. apply negb_false_iff in Hn.
    destruct (instance_check_ref _ _ Hn) as [V ->].
    edestruct chain_and_install_total as [st' ->]; [done| |discriminate]. lia.
Qed.

Lemma PyErr_SetObject_sound fuel exception o st st' :
  wf_heap (heap st) ->
  PyErr_SetObject fuel exception o st = Ok st' ->
  wf_heap (heap st').
Proof.
  unfold PyErr_SetObject, PyErr_Format. intros Hwf.
  destruct (_ && _); by apply set_object_body_sound.
Qed.

Lemma PyErr_SetObject_total fuel exception o st :
  wf_heap (heap st) -> S (length (heap st)) < fuel ->
  PyErr_SetObject fuel exception o st <> OutOfFuel.
Proof.
  unfold PyErr_SetObject, PyErr_Format. intros Hwf Hf.
  destruct (_ && _); by apply set_object_body_total.
Qed.

Lemma raises_wf st0 st :
  raises st0 st -> wf_heap (heap st0) -> wf_heap (heap st).
Proof.
  induction 1 as [st | st fuel exception o st1 st2 Hcall _ IH
                  | st v st2 _ IH | st st2 _ IH];
    intros Hwf; [done | | by apply IH..].
  apply IH. by eapply PyErr_SetObject_sound.
Qed.

Lemma chain_and_install_heap fuel exception E V st st' :
  wf_heap (heap st) -> E <> ExcRef V ->
  chain_and_install fuel exception E (ExcRef V) st = Ok st' ->
  exists l h1, chain (heap st) E l /\ unlink_effect (heap st) V l h1 /\
               heap st' = PyException_SetContext h1 (ExcRef V) E.
Proof.
  intros Hwf Hne. unfold chain_and_install.
  apply js_eq_false in Hne as Heq. rewrite Heq. simpl.
  destruct (unlink_loop _ _ _ _) as [[h1 c]| |] eqn:Hrun; simpl; try discriminate.
  intros [= <-]. simpl.
  destruct (unlink_loop_sound _ _ _ _ _ _ Hwf Hne Hrun) as (_ & _ & l & Hl & Heff).
  eauto.
Qed.

Lemma PyErr_SetObject_body fuel exception o st :
  exists exception', PyErr_SetObject fuel exception o st
                     = set_object_body fuel exception' o st /\
    (PyExceptionClass_Check exception = true -> exception' = exception).
Proof.
  unfold PyErr_SetObject, PyErr_Format.
  destruct exception; simpl; eauto; exists (JCls SystemError); by split.
Qed.

Lemma wf_heap_nil : wf_heap [].
Proof. intros v. exists []. constructor. by destruct v. Qed.

Lemma raises_example : raises st_empty st_after.
Proof.
  apply (raises_scope _ (Some (JStr "a"))).
  eapply (raises_call _ 5 (JCls SyntaxError) (JStr "a")); [reflexivity|].
  apply (raises_scope _ (Some (JStr "b"))).
  eapply (raises_call _ 5 (JCls SyntaxError) (JStr "b")); [reflexivity|].
  apply (raises_scope _ (Some JNull)).
  eapply (raises_call _ 5 (JCls TabError) JNull); [reflexivity|].
  apply (raises_scope _ (Some (ExcRef 0))).
  eapply (raises_call _ 5 (JCls SyntaxError) (ExcRef 0)); [reflexivity|].
  apply raises_done.
Defined.

Lemma no_self_context_set h p c :
  c <> ExcRef p -> no_self_context h ->
  no_self_context (PyException_SetContext h (ExcRef p) c).
Proof.
  intros Hc Hh a ob. simpl. destruct (decide (p = a)) as [->|Hne].
  - rewrite list_lookup_alter_eq. destruct (h !! a); [|done].
    intros [= <-]. done.
  - rewrite list_lookup_alter_ne by done. apply Hh.
Qed.

Lemma no_self_context_alloc h ob :
  exc_context ob = JNull -> no_self_context h -> no_self_context (h ++ [ob]).
Proof.
  intros Hob Hh a ob' Ha. apply lookup_app_Some in Ha as [Ha | [_ Ha]].
  - by apply Hh.
  - destruct (a - length h) as [|n]; simpl in Ha; [|done].
    injection Ha as <-. by rewrite Hob.
Qed.

Lemma unlink_loop_shape fuel h o value h1 c :
  unlink_loop fuel h o value = Ok (h1, c) ->
  h1 = h \/ exists p, h1 = PyException_SetContext h (ExcRef p) JNull.
Proof.
  revert o. induction fuel as [|fuel IH]; intros o; [discriminate|]. simpl.
  destruct (truthy _); [|intros [= <- <-]; by left].
  destruct (js_eq _ _); [|apply IH].
  intros [= <- <-]. destruct o; simpl; eauto.
Qed.

Lemma chain_and_install_no_self fuel exception E V st st' :
  no_self_context (heap st) ->
  chain_and_install fuel exception E (ExcRef V) st = Ok st' ->
  no_self_context (heap st').
Proof.
  intros Hh. unfold chain_and_install.
  destruct (js_eq E (ExcRef V)) eqn:Heq; simpl; [by intros [= <-]|].
  apply js_eq_false in Heq.
  destruct (unlink_loop _ _ _ _) as [[h1 c]| |] eqn:Hrun; simpl; try discriminate.
  intros [= <-]. simpl. apply no_self_context_set; [done|].
  destruct (unlink_loop_shape _ _ _ _ _ _ Hrun) as [-> | [p ->]]; [done|].
  by apply no_self_context_set.
Qed.

Lemma set_object_body_no_self fuel exception o st st' :
  no_self_context (heap st) ->
  set_object_body fuel exception o st = Ok st' ->
  no_self_context (heap st').
Proof.
  intros Hh. unfold set_object_body.
  destruct (g_value st) as [value|]; [|discriminate].
  destruct (negb (is_null (exc_value st)) && negb (is_None (exc_value st))).
  - destruct (is_null value || negb (PyExceptionInstance_Check (heap st) value)) eqn:Hn.
    + unfold PyEval_CallObject.
      destruct exception; try (intros [= <-]; exact Hh).
      apply chain_and_install_no_self. simpl. by apply no_self_context_alloc.
    + apply orb_false_iff in Hn as [_ Hn]. apply negb_false_iff in Hn.
      destruct (instance_check_ref _ _ Hn) as [V ->].
      by apply chain_and_install_no_self.
  - intros [= <-]. exact Hh.
Qed.

Lemma lookup_SetContext h p c a :
  PyException_SetContext h (ExcRef p) c !! a =
    (if decide (p = a) then set_context c else id) <$> h !! a.
Proof.
  simpl. destruct (decide (p = a)) as [->|Hne].
  - by rewrite list_lookup_alter_eq.
  - rewrite list_lookup_alter_ne by done. by destruct (h !! a).
Qed.

Lemma lookup_SetContext_Some h p c a ob :
  h !! a = Some ob ->
  exists ob', PyException_SetContext h (ExcRef p) c !! a = Some ob' /\
              exc_class ob' = exc_class ob /\ exc_args ob' = exc_args ob /\
              exc_tb ob' = exc_tb ob /\
              exc_context ob' = if decide (p = a) then c else exc_context ob.
Proof.
  intros Ha. rewrite lookup_SetContext, Ha. simpl.
  destruct (decide (p = a)); eauto 10.
Qed.

Lemma chain_and_install_record fuel exception E V st st' ob :
  heap st !! V = Some ob ->
  chain_and_install fuel exception E (ExcRef V) st = Ok st' ->
  exc_type st' = exception /\ exc_value st' = ExcRef V /\
  exc_traceback st' = exc_tb ob /\
  exists ob', heap st' !! V = Some ob' /\
              exc_class ob' = exc_class ob /\ exc_args ob' = exc_args ob /\
              exc_tb ob' = exc_tb ob /\
              (E <> ExcRef V -> exc_context ob' = E).
Proof.
  intros HV. unfold chain_and_install.
  destruct (js_eq E (ExcRef V)) eqn:Heq; simpl.
  - apply js_eq_true in Heq. intros [= <-]. unfold install. simpl.
    rewrite HV. rewrite bool_decide_eq_true_2 by eauto. simpl.
    repeat split; eauto 10. exists ob. repeat split; done.
  - destruct (unlink_loop _ _ _ _) as [[h1 c]| |] eqn:Hrun; simpl; try discriminate.
    intros [= <-].
    assert (exists ob1, h1 !! V = Some ob1 /\ exc_class ob1 = exc_class ob /\
              exc_args ob1 = exc_args ob /\ exc_tb ob1 = exc_tb ob)
      as (ob1 & H1 & Hc1 & Ha1 & Ht1).
    { destruct (unlink_loop_shape _ _ _ _ _ _ Hrun) as [-> | [p ->]]; [eauto|].
      destruct (lookup_SetContext_Some _ p JNull _ _ HV) as (ob1 & ? & ? & ? & ? & _).
      eauto 10. }
    destruct (lookup_SetContext_Some _ V E _ _ H1) as (ob' & H' & Hc' & Ha' & Ht' & Hx').
    rewrite decide_True in Hx' by done.
    unfold install. simpl in H' |- *.
    rewrite H'. rewrite bool_decide_eq_true_2 by eauto.
    repeat split; [congruence|]. exists ob'. repeat split; congruence.
Qed.

Lemma PyErr_SetObject_argument_unused fuel exception o1 o2 st :
  PyErr_SetObject fuel exception o1 st = PyErr_SetObject fuel exception o2 st.
Proof. reflexivity. Qed.

(** What the claim of the design describes does hold of the body when the
    name [value] denotes the record being raised. *)
Lemma chained_when_value_names_it fuel exception o A B ob st st' :
  g_value st = Some (ExcRef B) -> heap st !! B = Some ob ->
  exc_value st = A -> active st = true -> A <> ExcRef B ->
  PyExceptionClass_Check exception = true ->
  PyErr_SetObject fuel exception o st = Ok st' ->
  exc_type st' = exception /\ exc_value st' = ExcRef B /\
  PyException_GetContext (heap st') (ExcRef B) = A /\
  exc_traceback st' = exc_tb ob.
Proof.
  intros Hv HB HA Hact Hne Hcls.
  destruct (PyErr_SetObject_body fuel exception o st) as (e' & -> & He').
  rewrite (He' Hcls). clear e' He'.
  unfold set_object_body. unfold active in Hact. rewrite Hv, Hact. simpl.
  rewrite HB, HA. rewrite bool_decide_eq_true_2 by eauto. simpl. intros Hrun.
  eapply chain_and_install_record in Hrun
    as (Ht & Hval & Htb & ob' & H' & _ & _ & _ & Hctx); [|done].
  rewrite H'. auto.
Qed.

(** C2.  From a store whose context chains are all finite, after any
    sequence of raises: the walk along the context links from the active
    record ends and visits no record twice; a raise never runs for ever;
    and a raise that chains the record [V] to the active one links it
    only after the scan has cut [V] out of the active record's chain (the
    record whose context was [V] has its context set to none), or has
    found that [V] is not on it. *)
Theorem context_chain_stays_acyclic st0 st :
  wf_heap (heap st0) -> raises st0 st ->
  (exists l, context_chain (length (heap st)) (heap st) (exc_value st) = Some l
             /\ NoDup l) /\
  (forall fuel exception o, S (length (heap st)) < fuel ->
     PyErr_SetObject fuel exception o st <> OutOfFuel) /\
  (forall fuel exception o V st',
     g_value st = Some (ExcRef V) ->
     PyExceptionInstance_Check (heap st) (ExcRef V) = true ->
     active st = true -> exc_value st <> ExcRef V ->
     PyErr_SetObject fuel exception o st = Ok st' ->
     exists l h1,
       chain (heap st) (exc_value st) l /\
       unlink_effect (heap st) V l h1 /\
       heap st' = PyException_SetContext h1 (ExcRef V) (exc_value st)).
Proof.
  intros Hwf0 Hr. pose proof (raises_wf _ _ Hr Hwf0) as Hwf.
  split; [|split].
  - destruct (Hwf (exc_value st)) as [l Hl]. exists l.
    split; [|by eapply chain_NoDup].
    apply context_chain_complete; [done | by eapply chain_length].
  - intros fuel exception o Hf. by apply PyErr_SetObject_total.
  - intros fuel exception o V st' Hv Hinst Hact Hne.
    destruct (PyErr_SetObject_body fuel exception o st) as (e' & -> & _).
    unfold set_object_body. rewrite Hv. unfold active in Hact. rewrite Hact.
    rewrite Hinst. simpl. by apply chain_and_install_heap.
Qed.

Lemma context_chain_stays_acyclic_witness :
  exists l, context_chain (length (heap st_after)) (heap st_after)
                          (exc_value st_after) = Some l /\ NoDup l.
Proof.
  exact (proj1 (context_chain_stays_acyclic st_empty st_after
                  wf_heap_nil raises_example)).
Defined.

(** C3.  With the record at address 0 active, raising the record at
    address 1 does not make it active: the body reads the name [value],
    which the function does not bind (its parameter is spelled [o]), and
    the read throws. *)
Theorem raise_while_active_reads_unbound_name :
  exc_value st_A_active = ExcRef 0 /\
  PyExceptionInstance_Check (heap st_A_active) (ExcRef 1) = true /\
  PyErr_SetObject 3 (JCls TabError) (ExcRef 1) st_A_active
  = Throw (ReferenceError "value") /\
  PyErr_SetObject 3 (JCls TabError) (ExcRef 1) st_A_active
  <> PyErr_SetObject 3 (JCls TabError) (ExcRef 1)
       (set_g_value (Some (ExcRef 1)) st_A_active).
Proof.
  split; [reflexivity|]. split; [reflexivity|]. split; [reflexivity|].
  vm_compute. discriminate.
Qed.

(** With no binding for [value], no call gets past its first read. *)
Lemma unbound_name_throws fuel exception o st :
  g_value st = None ->
  PyErr_SetObject fuel exception o st = Throw (ReferenceError "value").
Proof.
  intros Hv. destruct (PyErr_SetObject_body fuel exception o st) as (e & -> & _).
  unfold set_object_body. by rewrite Hv.
Qed.

(** C8, as amended.  When the value being raised is not an exception
    instance: if an exception is active, an instance of the given class is
    built from no argument for an absent value, from the elements of an
    array, and from the value alone otherwise, and that instance is
    installed; if none is active, the value is installed as it is and
    nothing is built. *)
Theorem coercion_when_chaining fuel exception o st st' :
  g_value st = Some o ->
  PyExceptionInstance_Check (heap st) o = false ->
  PyExceptionClass_Check exception = true ->
  PyErr_SetObject fuel exception o st = Ok st' ->
  (active st = true ->
     coerced_and_installed exception o st' /\ exc_type st' = exception) /\
  (active st = false ->
     exc_value st' = o /\ heap st' = heap st /\ exc_type st' = exception) /\
  normalize_args JNull = [] /\ normalize_args Py_None = [] /\
  (forall l, normalize_args (JArr l) = l) /\
  (is_null o || is_None o || PyTuple_Check o = false ->
     normalize_args o = [o]).
Proof.
  intros Hv Hinst Hcls.
  destruct (PyErr_SetObject_body fuel exception o st) as (e' & -> & He').
  rewrite (He' Hcls). clear e' He'.
  unfold set_object_body, active. rewrite Hv, Hinst. intros Hrun.
  split; [|split; [|repeat split; [by destruct o..]]].
  - intros Hact. rewrite Hact in Hrun. rewrite orb_true_r in Hrun.
    destruct exception; try discriminate. simpl in Hrun.
    eapply chain_and_install_record in Hrun as (Ht & Hval & _ & ob' & H' & Hc' & Ha' & _ & _).
    2:{ simpl. by apply list_lookup_middle. }
    simpl in *. split; [|done]. exists (length (heap st)), ob'. done.
  - intros Hact. rewrite Hact in Hrun. by injection Hrun as <-.
Qed.

(** C8 fails as stated: with no exception active the string is installed
    as it is. *)
Lemma raw_value_installed_uncoerced :
  exists st',
    PyErr_SetObject 3 (JCls SyntaxError) (JStr "boom") st_raw_inactive = Ok st'
    /\ exc_value st' = JStr "boom" /\ heap st' = []
    /\ ~ coerced_and_installed (JCls SyntaxError) (JStr "boom") st'.
Proof.
  eexists. split; [reflexivity|]. split; [reflexivity|]. split; [reflexivity|].
  intros (a & ob & Hval & _). discriminate.
Qed.

Lemma coercion_when_chaining_witness :
  coerced_and_installed (JCls SyntaxError) (JArr [JStr "boom"; JNum 7])
    (mkState [mkExc (JCls TabError) [] JNull JNull;
              mkExc (JCls SyntaxError) [JStr "boom"; JNum 7] (ExcRef 0) JNull]
       (JCls SyntaxError) (ExcRef 1) JNull (Some (ExcRef 1)) (Some JNull)).
Proof.
  refine (proj1 (proj1 (coercion_when_chaining 3 (JCls SyntaxError)
            (JArr [JStr "boom"; JNum 7]) st_raw_active _ _ _ _ _) _));
    reflexivity.
Defined.

(** C10.  When the value being raised is the record that is already
    active, the call leaves the store as it is; and no call makes a record
    its own context. *)
Theorem same_record_is_not_chained fuel exception o st st' :
  PyErr_SetObject fuel exception o st = Ok st' ->
  (g_value st = Some o -> exc_value st = o ->
   PyExceptionInstance_Check (heap st) o = true ->
   heap st' = heap st /\ exc_value st' = o) /\
  (no_self_context (heap st) -> no_self_context (heap st')).
Proof.
  destruct (PyErr_SetObject_body fuel exception o st) as (e' & -> & _).
  intros Hrun. split.
  - intros Hv HE Hinst. revert Hrun. unfold set_object_body.
    rewrite Hv, HE. destruct (instance_check_ref _ _ Hinst) as [V ->].
    rewrite Hinst. simpl. unfold chain_and_install, js_eq.
    rewrite bool_decide_eq_true_2 by done. simpl. by intros [= <-].
  - intros Hh. by eapply set_object_body_no_self.
Qed.

Lemma same_record_is_not_chained_witness :
  heap st_B_active = heap st_B_active /\ exc_value st_B_active = ExcRef 1.
Proof.
  refine (proj1 (same_record_is_not_chained 3 (JCls TabError) (ExcRef 1)
                   st_B_active st_B_active _) _ _ _); reflexivity.
Defined.


End ChainerFacts.

(** ** The error classifier *)

Module ClassifierFacts.
Import Chainer Classifier.

Section facts.
Context `{ErrCodes} `{TokenTypes}.

Lemma E_pairwise :
  forall i j a b,
    [E_OK; E_EOF; E_INTR; E_TOKEN; E_SYNTAX; E_NOMEM; E_DONE; E_ERROR;
     E_TABSPACE; E_OVERFLOW; E_TOODEEP; E_DEDENT; E_DECODE; E_EOFS;
     E_EOLS; E_LINECONT; E_IDENTIFIER; E_BADSINGLE] !! i = Some a ->
    [E_OK; E_EOF; E_INTR; E_TOKEN; E_SYNTAX; E_NOMEM; E_DONE; E_ERROR;
     E_TABSPACE; E_OVERFLOW; E_TOODEEP; E_DEDENT; E_DECODE; E_EOFS;
     E_EOLS; E_LINECONT; E_IDENTIFIER; E_BADSINGLE] !! j = Some b ->
    i <> j -> (a =? b)%Z = false.
Proof.
  intros i j a b Hi Hj Hij. apply Z.eqb_neq. intros ->.
  apply Hij. eapply NoDup_lookup; [apply E_distinct | done..].
Qed.

Lemma T_pairwise :
  forall i j a b,
    [ENDMARKER; NEWLINE; INDENT; DEDENT; ERRORTOKEN] !! i = Some a ->
    [ENDMARKER; NEWLINE; INDENT; DEDENT; ERRORTOKEN] !! j = Some b ->
    i <> j -> (a =? b)%Z = false.
Proof.
  intros i j a b Hi Hj Hij. apply Z.eqb_neq. intros ->.
  apply Hij. eapply NoDup_lookup; [apply T_distinct | done..].
Qed.

End facts.

Ltac code_index c :=
  lazymatch c with
  | E_OK => constr:(0) | E_EOF => constr:(1) | E_INTR => constr:(2)
  | E_TOKEN => constr:(3) | E_SYNTAX => constr:(4) | E_NOMEM => constr:(5)
  | E_DONE => constr:(6) | E_ERROR => constr:(7) | E_TABSPACE => constr:(8)
  | E_OVERFLOW => constr:(9) | E_TOODEEP => constr:(10)
  | E_DEDENT => constr:(11) | E_DECODE => constr:(12) | E_EOFS => constr:(13)
  | E_EOLS => constr:(14) | E_LINECONT => constr:(15)
  | E_IDENTIFIER => constr:(16) | E_BADSINGLE => constr:(17)
  end.

Ltac token_index c :=
  lazymatch c with
  | ENDMARKER => constr:(0) | NEWLINE => constr:(1) | INDENT => constr:(2)
  | DEDENT => constr:(3) | ERRORTOKEN => constr:(4)
  end.

(** Decides the comparisons between two named codes. *)
Ltac compare_codes :=
  repeat match goal with
  | |- context [(?a =? ?a)%Z] => rewrite (Z.eqb_refl a)
  | |- context [(?a =? ?b)%Z] =>
      let i := code_index a in let j := code_index b in
      rewrite (E_pairwise i j a b eq_refl eq_refl ltac:(discriminate))
  | |- context [(?a =? ?b)%Z] =>
      let i := token_index a in let j := token_index b in
      rewrite (T_pairwise i j a b eq_refl eq_refl ltac:(discriminate))
  end.


Ltac use_disequalities :=
  repeat match goal with
  | Hn : ?a <> ?b |- context [(?a =? ?b)%Z] =>
      rewrite (proj2 (Z.eqb_neq a b) Hn)
  end.

Ltac use_equalities :=
  repeat match goal with
  | Heq : ?f ?e = _ |- context [(?f ?e =? _)%Z] => rewrite Heq
  end.

Ltac run_switch :=
  unfold err_input, switch_on_error; use_equalities; compare_codes;
  use_disequalities; compare_codes; try reflexivity.

Section classifier_facts.
Context `{ErrCodes} `{TokenTypes}.

(** What the call of line 198 does with the arguments it is given.  The
    body of the chainer reads the name [value], not its parameter: with
    that name unbound the call throws; with that name denoting the
    payload and nothing active, the class and the payload are installed
    and no record is built. *)
Lemma final_call_run fuel err st e w st1 :
  final_call fuel err st = Some (e, w, st1) ->
  err_input fuel err st = PyErr_SetObject fuel e w st1 /\
  (g_value st1 = None ->
     err_input fuel err st = Throw (ReferenceError "value")) /\
  (g_value st1 = Some w -> active st1 = false ->
     exists st',
       err_input fuel err st = Ok st' /\ exc_type st' = e /\
       exc_value st' = w /\ heap st' = heap st1).
Proof.
  unfold final_call, err_input.
  destruct (switch_on_error fuel err st) as [r|cls msg msg_obj st2];
    [discriminate|].
  intros [= <- <- <-]. split; [reflexivity|].
  unfold PyErr_SetObject, set_object_body, active. simpl. split.
  - by intros ->.
  - intros -> ->. eexists. split; [reflexivity|]. by repeat split.
Qed.

(** C1, as amended.  For each error kind of the table the classifier
    ends with the call of the chainer on exactly the paired exception
    kind and the pair of the fixed message and the position: the four
    cases of SYNTAX, TOKEN, the two string kinds, END_OF_FILE,
    EXPRESSION_TOO_LONG, LINE_CONTINUATION, BAD_IDENTIFIER_CHAR,
    MULTIPLE_STATEMENTS (all SyntaxError), INCONSISTENT_TABS (TabError),
    DEDENT_MISMATCH and TOO_DEEP_INDENT (IndentationError); OUT_OF_MEMORY
    raises MemoryError with no message; a kind with no case of its own is
    handed over as SyntaxError, unknown parsing error; and the kind
    [E_ERROR] is the one kind that is dropped: the classifier makes no
    call and returns.  The position is the file name, the line, the
    offset and the text, none when the text is absent or empty.  What the
    chainer does with the call depends on the name [value] its body
    reads: unbound, the call throws; denoting the payload, with nothing
    active, kind and payload are installed. *)
Theorem err_input_table fuel err st :
  (error err = E_SYNTAX -> expected err = INDENT ->
   final_call fuel err st
   = Some (JCls IndentationError,
           JArr [JStr "expected an indented block"; position err], st)) /\
  (error err = E_SYNTAX -> expected err <> INDENT -> token err = INDENT ->
   final_call fuel err st
   = Some (JCls IndentationError,
           JArr [JStr "unexpected indent"; position err], st)) /\
  (error err = E_SYNTAX -> expected err <> INDENT -> token err = DEDENT ->
   final_call fuel err st
   = Some (JCls IndentationError,
           JArr [JStr "unexpected unindent"; position err], st)) /\
  (error err = E_SYNTAX -> expected err <> INDENT -> token err <> INDENT ->
   token err <> DEDENT ->
   final_call fuel err st
   = Some (JCls SyntaxError, JArr [JStr "invalid syntax"; position err],
           st)) /\
  (error err = E_TOKEN ->
   final_call fuel err st
   = Some (JCls SyntaxError, JArr [JStr "invalid token"; position err],
           st)) /\
  (error err = E_EOFS ->
   final_call fuel err st
   = Some (JCls SyntaxError,
           JArr [JStr "EOF while scanning triple-quoted string literal";
                 position err], st)) /\
  (error err = E_EOLS ->
   final_call fuel err st
   = Some (JCls SyntaxError,
           JArr [JStr "EOL while scanning string literal"; position err],
           st)) /\
  (error err = E_EOF ->
   final_call fuel err st
   = Some (JCls SyntaxError,
           JArr [JStr "unexpected EOF while parsing"; position err], st)) /\
  (error err = E_OVERFLOW ->
   final_call fuel err st
   = Some (JCls SyntaxError, JArr [JStr "expression too long"; position err],
           st)) /\
  (error err = E_LINECONT ->
   final_call fuel err st
   = Some (JCls SyntaxError,
           JArr [JStr "unexpected character after line continuation character";
                 position err], st)) /\
  (error err = E_IDENTIFIER ->
   final_call fuel err st
   = Some (JCls SyntaxError,
           JArr [JStr "invalid character in identifier"; position err],
           st)) /\
  (error err = E_BADSINGLE ->
   final_call fuel err st
   = Some (JCls SyntaxError,
           JArr [JStr "multiple statements found while compiling a single statement";
                 position err], st)) /\
  (error err = E_TABSPACE ->
   final_call fuel err st
   = Some (JCls TabError,
           JArr [JStr "inconsistent use of tabs and spaces in indentation";
                 position err], st)) /\
  (error err = E_DEDENT ->
   final_call fuel err st
   = Some (JCls IndentationError,
           JArr [JStr "unindent does not match any outer indentation level";
                 position err], st)) /\
  (error err = E_TOODEEP ->
   final_call fuel err st
   = Some (JCls IndentationError,
           JArr [JStr "too many levels of indentation"; position err],
           st)) /\
  (error err = E_NOMEM ->
   final_call fuel err st = None /\
   err_input fuel err st = PyErr_SetNone fuel (JCls MemoryError) st) /\
  (error err ∉ handled ->
   final_call fuel err st
   = Some (JCls SyntaxError,
           JArr [JStr "unknown parsing error"; position err], st)) /\
  (error err = E_ERROR ->
   final_call fuel err st = None /\ err_input fuel err st = Ok st) /\
  (text err = None \/ text err = Some "" ->
   position err
   = JArr [JStr (filename err); JNum (lineno err); JNum (offset err);
           JNull]) /\
  (forall t, text err = Some t -> t <> "" ->
   position err
   = JArr [JStr (filename err); JNum (lineno err); JNum (offset err);
           JStr t]) /\
  (forall e w st1,
     final_call fuel err st = Some (e, w, st1) ->
     err_input fuel err st = PyErr_SetObject fuel e w st1 /\
     (g_value st1 = None ->
        err_input fuel err st = Throw (ReferenceError "value")) /\
     (g_value st1 = Some w -> active st1 = false ->
        exists st',
          err_input fuel err st = Ok st' /\ exc_type st' = e /\
          exc_value st' = w /\ heap st' = heap st1)).
Proof.
  repeat match goal with |- _ /\ _ => split end;
    try (intros He; intros; unfold final_call; run_switch; fail).
  - intros He. split; [unfold final_call|]; by run_switch.
  - intros He. unfold handled in He. rewrite !not_elem_of_cons in He.
    destruct_and!. unfold final_call. run_switch.
  - intros He. split; [unfold final_call|]; by run_switch.
  - unfold position. by intros [-> | ->].
  - intros t Ht Hne. unfold position.
    by rewrite Ht, (proj2 (String.eqb_neq t "") Hne).
  - intros e w st1. apply final_call_run.
Qed.

(** C4, as amended.  The kind that returns without a call of the chainer
    and leaves the exception state as it is, is [E_ERROR], not OK;
    INTERRUPTED raises KeyboardInterrupt when no exception is active and
    does nothing when one is; OK has no case and is handed to the chainer
    as SyntaxError, unknown parsing error; OUT_OF_MEMORY raises
    MemoryError; and every other kind ends with the call of line 198. *)
Theorem err_input_quiet_cases fuel err st :
  (error err = E_ERROR ->
   final_call fuel err st = None /\ err_input fuel err st = Ok st) /\
  (error err = E_INTR ->
   final_call fuel err st = None /\
   (truthy (PyErr_Occurred st) = true -> err_input fuel err st = Ok st) /\
   (truthy (PyErr_Occurred st) = false ->
      err_input fuel err st = PyErr_SetNone fuel (JCls KeyboardInterrupt) st /\
      forall v, g_value st = Some v -> active st = false ->
        exists st',
          err_input fuel err st = Ok st' /\
          exc_type st' = JCls KeyboardInterrupt /\ st' <> st)) /\
  (error err = E_OK ->
   final_call fuel err st
   = Some (JCls SyntaxError,
           JArr [JStr "unknown parsing error"; position err], st) /\
   err_input fuel err st
   = PyErr_SetObject fuel (JCls SyntaxError)
       (JArr [JStr "unknown parsing error"; position err]) st) /\
  (error err = E_NOMEM ->
   err_input fuel err st = PyErr_SetNone fuel (JCls MemoryError) st) /\
  (error err <> E_ERROR -> error err <> E_INTR -> error err <> E_NOMEM ->
   exists cls w st1,
     final_call fuel err st = Some (JCls cls, w, st1) /\
     err_input fuel err st = PyErr_SetObject fuel (JCls cls) w st1).
Proof.
  split; [|split; [|split; [|split]]].
  - intros He. split; [unfold final_call|]; by run_switch.
  - intros He. split; [unfold final_call; run_switch; by destruct (truthy _)|].
    split.
    + intros Hocc. run_switch. by rewrite Hocc.
    + intros Hocc.
      assert (err_input fuel err st
              = PyErr_SetNone fuel (JCls KeyboardInterrupt) st) as Hrun
        by (run_switch; by rewrite Hocc).
      split; [exact Hrun|]. intros v Hv Hact. rewrite Hrun.
      unfold PyErr_SetNone, PyErr_SetObject, set_object_body.
      unfold active in Hact. simpl. rewrite Hv, Hact.
      eexists. split; [reflexivity|]. split; [reflexivity|].
      intros Heq. unfold PyErr_Occurred in Hocc. rewrite <- Heq in Hocc.
      discriminate.
  - intros He. split; [unfold final_call|]; by run_switch.
  - intros He. by run_switch.
  - intros He1 He2 He3. unfold final_call, err_input, switch_on_error.
    use_disequalities.
    repeat (destruct (_ =? _)%Z; eauto).
Qed.

End classifier_facts.

(** C1 fails as stated: [E_ERROR] is not OK, is none of the kinds of the
    table, and is dropped: the classifier makes no call of the chainer and
    returns with the state as it was, where the raise the claim asks for
    would have changed it. *)
Lemma E_ERROR_is_dropped :
  error err_E_ERROR = @E_ERROR cpython_errcodes /\
  error err_E_ERROR <> @E_OK cpython_errcodes /\
  (error err_E_ERROR ∉ @tabled cpython_errcodes) /\
  final_call (H:=cpython_errcodes) (H0:=cpython_tokens) 3 err_E_ERROR
             (st_bound unknown_error_payload) = None /\
  err_input (H:=cpython_errcodes) (H0:=cpython_tokens) 3 err_E_ERROR
            (st_bound unknown_error_payload)
  = Ok (st_bound unknown_error_payload) /\
  PyErr_SetObject 3 (JCls SyntaxError) unknown_error_payload
                  (st_bound unknown_error_payload)
  <> Ok (st_bound unknown_error_payload).
Proof.
  split; [reflexivity|]. split; [done|]. split.
  - unfold tabled. simpl. rewrite !not_elem_of_cons.
    repeat split; try done. apply not_elem_of_nil.
  - split; [reflexivity|]. split; [reflexivity|]. vm_compute. discriminate.
Qed.

Lemma err_input_table_witness :
  final_call (H:=cpython_errcodes) (H0:=cpython_tokens) 3 err_expected_indent
             st_empty
  = Some (JCls IndentationError,
          JArr [JStr "expected an indented block";
                position err_expected_indent], st_empty).
Proof.
  exact (proj1 (err_input_table (H:=cpython_errcodes) (H0:=cpython_tokens)
                  3 err_expected_indent st_empty) eq_refl eq_refl).
Defined.

(** C4 fails as stated: classifying OK is not quiet.  The classifier
    calls the chainer with SyntaxError and the message of the default
    case; with the name [value] unbound that call throws, and with
    [value] denoting the payload SyntaxError is installed: in neither case
    does the classifier return with the state as it was. *)
Lemma E_OK_is_raised :
  error err_E_OK = @E_OK cpython_errcodes /\
  final_call (H:=cpython_errcodes) (H0:=cpython_tokens) 3 err_E_OK st_empty
  = Some (JCls SyntaxError,
          JArr [JStr "unknown parsing error"; position err_E_OK], st_empty) /\
  err_input (H:=cpython_errcodes) (H0:=cpython_tokens) 3 err_E_OK st_empty
  = Throw (ReferenceError "value") /\
  exists st',
    err_input (H:=cpython_errcodes) (H0:=cpython_tokens) 3 err_E_OK
              (st_bound unknown_error_payload) = Ok st' /\
    exc_type st' = JCls SyntaxError /\
    st' <> st_bound unknown_error_payload.
Proof.
  split; [reflexivity|]. split; [reflexivity|]. split; [reflexivity|].
  eexists. split; [reflexivity|]. split; [reflexivity | discriminate].
Qed.

Lemma err_input_quiet_cases_witness :
  err_input (H:=cpython_errcodes) (H0:=cpython_tokens) 3 err_E_INTR
            st_B_active
  = Ok st_B_active.
Proof.
  exact (proj1 (proj2 (proj1 (proj2 (err_input_quiet_cases
                         (H:=cpython_errcodes) (H0:=cpython_tokens)
                         3 err_E_INTR st_B_active)) eq_refl))
               eq_refl).
Defined.

End ClassifierFacts.

(** ** The parse driver *)

Module DriverFacts.
Import Driver ClassifierFacts.

Section driver_facts.
Context `{ErrCodes} `{TokenTypes}.
Context {TokState Grammar Tree ParserState : Type}.
Context `{!TokenSource TokState} `{!GrammarEngine Grammar Tree ParserState}.

(** C9.  The column handed to the engine for a token is the sentinel -1
    when the token starts before the recorded start of the line, and the
    start of the token minus the start of the line, which is not
    negative, when it starts at or after it. *)
Theorem column_offset_sentinel (err_ret : ErrorDetail)
    (tok tok1 tok2 : Tokenizer TokState) (started started' : bool)
    (type a b : Z) (f : Feed) :
  get_token tok = ((type, a, b), tok1) ->
  next_feed err_ret tok started = (tok2, Some (f, started')) ->
  ((a < tok_line_start tok1)%Z -> feed_col f = (-1)%Z) /\
  ((tok_line_start tok1 <= a)%Z ->
     feed_col f = (a - tok_line_start tok1)%Z /\ (0 <= feed_col f)%Z).
Proof.
  intros Hget. unfold next_feed. rewrite Hget.
  destruct (type =? ERRORTOKEN)%Z; [discriminate|].
  assert (forall t s, tok_line_start (end_of_input t s tok1).2 = tok_line_start tok1) as Hls.
  { intros t s. unfold end_of_input. destruct (_ && _); [|done].
    simpl. by destruct (negb _). }
  specialize (Hls type started).
  destruct (end_of_input type started tok1) as [[type' started''] tok1'].
  simpl in Hls. intros [= <- <- <-]. simpl. rewrite Hls. unfold col_offset.
  split; intros Ha.
  - rewrite Z.geb_leb. by rewrite (proj2 (Z.leb_gt _ _)) by lia.
  - rewrite Z.geb_leb. rewrite (proj2 (Z.leb_le _ _)) by lia. lia.
Qed.


(** C5.  When the end marker arrives while the flag [started] is set,
    the round feeds the engine one NEWLINE in its place, not the end
    marker, and resets the flag; the indent depth of the Token Source is
    zero afterwards; and the pending adjustment is minus the depth N the
    Token Source reported, given that none was pending when the end marker
    was handed out (a Token Source hands out its pending INDENT and DEDENT
    tokens before any other token).  When N is not zero this holds
    whatever was pending, and when N is zero the driver leaves the
    tokenizer as it is. *)
Theorem end_marker_substitution (err_ret : ErrorDetail)
    (tok tok1 : Tokenizer TokState) (ps : Parser Tree ParserState) (a b : Z) :
  get_token tok = ((ENDMARKER, a, b), tok1) ->
  exists tok2 f,
    next_feed err_ret tok true = (tok2, Some (f, false)) /\
    parsetok_round err_ret tok ps true = feed_engine f err_ret tok2 ps false /\
    feed_type f = NEWLINE /\ feed_type f <> ENDMARKER /\
    tok_indent tok2 = 0%Z /\
    (tok_pendin tok1 = 0%Z -> tok_pendin tok2 = (- tok_indent tok1)%Z) /\
    (tok_indent tok1 <> 0%Z ->
       tok_pendin tok2 = (- tok_indent tok1)%Z /\ tok2 = set_dedents tok1) /\
    (tok_indent tok1 = 0%Z -> tok2 = tok1).
Proof.
  intros Hget.
  exists (if negb (tok_indent tok1 =? 0)%Z then set_dedents tok1 else tok1).
  eexists. unfold parsetok_round, next_feed. rewrite Hget.
  rewrite (T_pairwise 0 4 ENDMARKER ERRORTOKEN eq_refl eq_refl) by done.
  unfold end_of_input. rewrite Z.eqb_refl. simpl.
  split; [reflexivity|]. split; [reflexivity|]. split; [reflexivity|].
  split.
  { apply Z.eqb_neq.
    by apply (T_pairwise 1 0 NEWLINE ENDMARKER eq_refl eq_refl). }
  destruct (Z.eqb_spec (tok_indent tok1) 0) as [Hz|Hz]; simpl.
  - split; [done|]. split; [intros ->; by rewrite Hz|]. split; done.
  - split; [done|]. split; [done|]. split; done.
Qed.

(** Every token that is not the end marker is fed as it is and sets the
    flag. *)
Lemma started_after_token (err_ret : ErrorDetail)
    (tok tok1 tok2 : Tokenizer TokState) (started started' : bool)
    (type a b : Z) (f : Feed) :
  get_token tok = ((type, a, b), tok1) ->
  type <> ENDMARKER ->
  next_feed err_ret tok started = (tok2, Some (f, started')) ->
  started' = true /\ feed_type f = type /\ tok2 = tok1.
Proof.
  intros Hget Hne. unfold next_feed. rewrite Hget.
  destruct (type =? ERRORTOKEN)%Z; [discriminate|].
  unfold end_of_input. rewrite (proj2 (Z.eqb_neq _ _) Hne). simpl.
  by intros [= <- <- <-].
Qed.

(** *** The scan after a single statement *)

Lemma skip_blank_length rest cur :
  length (skip_blank rest cur).1 <= length rest.
Proof.
  revert cur. induction rest as [|c rest IH]; intros cur; simpl; [done|].
  destruct (is_blank c); simpl; [|done]. specialize (IH (cur + 1)%Z). lia.
Qed.

Lemma skip_comment_length rest cur :
  length (skip_comment rest cur).1 <= length rest.
Proof.
  revert cur. induction rest as [|c rest IH]; intros cur; simpl; [done|].
  destruct (negb _); simpl; [|done]. specialize (IH (cur + 1)%Z). lia.
Qed.

Lemma trailing_loop_total fuel rest cur :
  length rest < fuel -> is_Some (trailing_loop fuel rest cur).
Proof.
  revert rest cur. induction fuel as [|fuel IH]; intros rest cur Hf; [lia|].
  simpl. pose proof (skip_blank_length rest cur) as Hb.
  destruct (skip_blank rest cur) as [rest1 cur1]. simpl in Hb.
  destruct rest1 as [|c rest1]; [by eexists|].
  destruct (Ascii.eqb_spec c "#") as [->|Hc]; [|by eexists].
  pose proof (skip_comment_length rest1 (cur1 + 1)) as Hc.
  simpl. destruct (skip_comment rest1 (cur1 + 1)) as [rest2 cur2].
  simpl in *. apply IH. lia.
Qed.

(** The blanks of the scan are the whitespace of the design document. *)
Lemma is_blank_whitespace c : is_blank c = true <-> c ∈ whitespace.
Proof.
  unfold is_blank, whitespace.
  rewrite !orb_true_iff, !elem_of_cons, elem_of_nil.
  rewrite !Ascii.eqb_eq. tauto.
Qed.

Lemma trailing_loop_blank fuel c rest cur :
  c ∈ whitespace ->
  trailing_loop (S fuel) (c :: rest) cur
  = trailing_loop (S fuel) rest (cur + 1).
Proof. intros Hc. apply is_blank_whitespace in Hc. simpl. by rewrite Hc. Qed.

Lemma trailing_loop_hash fuel rest cur :
  trailing_loop (S fuel) ("#"%char :: rest) cur
  = trailing_loop fuel (skip_comment rest (cur + 1)).1
                       (skip_comment rest (cur + 1)).2.
Proof. simpl. by destruct (skip_comment rest (cur + 1)). Qed.

Lemma skip_comment_body body rest cur :
  "010"%char ∉ body ->
  (rest = [] \/ exists rest', rest = "010"%char :: rest') ->
  (skip_comment (body ++ rest) cur).1 = rest.
Proof.
  revert cur. induction body as [|c body IH]; intros cur Hb Hr; simpl.
  - by destruct Hr as [-> | [rest' ->]].
  - apply not_elem_of_cons in Hb as [Hc Hb].
    destruct (Ascii.eqb_spec c "010"); [congruence|]. simpl. by apply IH.
Qed.

Lemma trailing_loop_accepts rest :
  trailing_ok rest ->
  forall fuel cur, length rest < fuel ->
  exists cur', trailing_loop fuel rest cur = Some (true, cur').
Proof.
  induction 1 as [|c rest Hc Hok IH|body Hb|body rest Hb Hok IH];
    intros fuel cur Hf; (destruct fuel as [|fuel]; [lia|]).
  - simpl. eauto.
  - rewrite trailing_loop_blank by done. apply IH. simpl in Hf. lia.
  - rewrite trailing_loop_hash.
    replace body with (body ++ []) by apply app_nil_r.
    rewrite skip_comment_body by auto.
    destruct fuel as [|fuel]; [simpl in Hf; lia|]. simpl. eauto.
  - rewrite trailing_loop_hash. rewrite skip_comment_body by eauto.
    simpl in Hf. rewrite length_app in Hf. simpl in Hf.
    destruct fuel as [|fuel]; [lia|].
    rewrite trailing_loop_blank by (unfold whitespace; rewrite !elem_of_cons; auto).
    apply IH. lia.
Qed.

Lemma skip_blank_split rest cur :
  exists blanks,
    rest = blanks ++ (skip_blank rest cur).1 /\
    Forall (fun c => is_blank c = true) blanks /\
    match (skip_blank rest cur).1 with
    | c :: _ => is_blank c = false
    | [] => True
    end.
Proof.
  revert cur. induction rest as [|c rest IH]; intros cur; simpl.
  - by exists [].
  - destruct (is_blank c) eqn:Hc.
    + destruct (IH (cur + 1)%Z) as (blanks & Hr & Hb & Hh).
      exists (c :: blanks). simpl. split; [by f_equal|]. split; [|done].
      by constructor.
    + exists []. simpl. by rewrite Hc.
Qed.

Lemma skip_comment_split rest cur :
  exists body,
    rest = body ++ (skip_comment rest cur).1 /\
    ("010"%char ∉ body) /\
    ((skip_comment rest cur).1 = [] \/
     exists rest', (skip_comment rest cur).1 = "010"%char :: rest').
Proof.
  revert cur. induction rest as [|c rest IH]; intros cur; simpl.
  - exists []. split; [done|]. split; [apply not_elem_of_nil | by left].
  - destruct (Ascii.eqb_spec c "010") as [->|Hc]; simpl.
    + exists []. split; [done|]. split; [apply not_elem_of_nil | eauto].
    + destruct (IH (cur + 1)%Z) as (body & Hr & Hb & Hh).
      exists (c :: body). simpl. split; [by f_equal|]. split; [|done].
      by apply not_elem_of_cons.
Qed.

Lemma trailing_ok_blanks blanks rest :
  Forall (fun c => is_blank c = true) blanks ->
  trailing_ok rest -> trailing_ok (blanks ++ rest).
Proof.
  induction 1; simpl; [done|]. intros Hok.
  constructor; [by apply is_blank_whitespace | auto].
Qed.

Lemma trailing_loop_sound fuel rest cur cur' :
  trailing_loop fuel rest cur = Some (true, cur') -> trailing_ok rest.
Proof.
  revert rest cur. induction fuel as [|fuel IH]; intros rest cur; [discriminate|].
  simpl. destruct (skip_blank_split rest cur) as (blanks & Hr & Hb & Hh).
  destruct (skip_blank rest cur) as [rest1 cur1]. simpl in *.
  destruct rest1 as [|c rest1].
  - intros _. rewrite Hr. apply trailing_ok_blanks; [done | constructor].
  - destruct (Ascii.eqb_spec c "#") as [->|Hc]; [|discriminate]. simpl.
    destruct (skip_comment_split rest1 (cur1 + 1)) as (body & Hr1 & Hbody & Hh1).
    destruct (skip_comment rest1 (cur1 + 1)) as [rest2 cur2]. simpl in *.
    intros Hrun. apply IH in Hrun.
    rewrite Hr. apply trailing_ok_blanks; [done|]. rewrite Hr1.
    destruct Hh1 as [-> | [rest' ->]].
    + rewrite app_nil_r. by constructor.
    + constructor; [done|]. inversion Hrun; subst; done.
Qed.

(** C6.  In single-statement mode, once the engine has answered Done
    with a tree, the driver looks at what is left in the buffer from the
    cursor on.  When that is any combination of whitespace (space, tab,
    newline, form feed) and comments from [#] to the end of the line, the
    tree is kept, the kind stays Done, and [parsetok] returns the tree
    (bare, or under the encoding node).  When it is anything else, the
    kind is set to MULTIPLE_STATEMENTS and the tree is dropped: [parsetok]
    returns no tree, and the kind it reports is MULTIPLE_STATEMENTS,
    unless the final step replaces it by END_OF_FILE. *)
Theorem single_statement_trailing (fuel : nat) (tok tok1 : Tokenizer TokState)
    (g : Grammar) (start : Z) (err_ret err1 : ErrorDetail) (flags : Z)
    (ps1 : Parser Tree ParserState) (t : Tree) (seen rest : list ascii) :
  parsetok_loop fuel err_ret tok (Parser_new g start) false
  = Some (err1, tok1, ps1) ->
  error err1 = E_DONE -> p_tree ps1 = Some t -> start = single_input ->
  tok_buf tok1 = seen ++ rest -> tok_cur tok1 = Z.of_nat (length seen) ->
  exists n err2 tok2 ps2 r,
    after_loop start err1 tok1 ps1 = Some (n, err2, tok2, ps2) /\
    parsetok fuel tok g start err_ret flags = Some r /\
    (trailing_ok rest ->
       n = Some t /\ error err2 = E_DONE /\ error (res_err r) = E_DONE /\
       (res_n r = Some (Parsed t) \/
        exists enc,
          res_n r = Some (EncodingNode encoding_decl enc 1 (Parsed t)))) /\
    (~ trailing_ok rest ->
       n = None /\ error err2 = E_BADSINGLE /\ res_n r = None /\
       error (res_err r)
       = if (tok_done tok1 =? E_EOF)%Z then E_EOF else E_BADSINGLE).
Proof.
  intros Hloop He Ht -> Hbuf Hcur. unfold parsetok. rewrite Hloop.
  unfold after_loop. rewrite He, !Z.eqb_refl. unfold buf_from.
  rewrite (proj2 (Z.ltb_ge _ 0)) by lia.
  rewrite Hbuf, Hcur, Nat2Z.id, drop_app_length.
  destruct (trailing_loop_total (S (length rest)) rest (Z.of_nat (length seen)))
    as [[ok cur'] Hrun]; [lia|].
  rewrite Hrun. destruct ok.
  - do 5 eexists. split; [reflexivity|]. split; [reflexivity|]. split.
    + intros _. rewrite Ht. split; [done|]. split; [done|].
      unfold finish. destruct (tok_encoding _) as [enc|]; simpl; eauto.
    + intros Hbad. exfalso. apply Hbad. by eapply trailing_loop_sound.
  - do 5 eexists. split; [reflexivity|]. split; [reflexivity|]. split.
    + intros Hok.
      destruct (trailing_loop_accepts rest Hok (S (length rest))
                  (Z.of_nat (length seen))) as [cur'' Hrun']; [lia|].
      rewrite Hrun in Hrun'. discriminate.
    + intros _. by repeat split.
Qed.

(** C7, as amended.  The error kind starts at OK.  At the end of
    [parsetok], when there is no tree, the kind becomes END_OF_FILE
    whenever the code of the Token Source is END_OF_FILE, whatever kind
    was set before, and is kept otherwise; filling in the line, the offset
    and the text changes nothing else of it.  When there is a tree the
    record is returned as the loop left it.  After the loop the kind is
    changed only from Done to MULTIPLE_STATEMENTS. *)
Theorem error_kind_at_exit (fuel : nat) (tok : Tokenizer TokState)
    (g : Grammar) (start : Z) (err_ret : ErrorDetail) (flags : Z)
    (r : Parsed_) :
  parsetok fuel tok g start err_ret flags = Some r ->
  (forall name, error (new_ErrorDetail name) = E_OK) /\
  exists err1 tok1 ps1 n err2 tok2 ps2,
    parsetok_loop fuel err_ret tok (Parser_new g start) false
    = Some (err1, tok1, ps1) /\
    after_loop start err1 tok1 ps1 = Some (n, err2, tok2, ps2) /\
    (error err2 = error err1 \/
     (error err1 = E_DONE /\ error err2 = E_BADSINGLE /\ n = None)) /\
    match n with
    | None =>
        error (res_err r)
        = if (tok_done tok2 =? E_EOF)%Z then E_EOF else error err2
    | Some _ => res_err r = err2
    end.
Proof.
  unfold parsetok. intros Hrun. split; [done|].
  destruct (parsetok_loop _ _ _ _ _) as [[[err1 tok1] ps1]|]; [|discriminate].
  destruct (after_loop start err1 tok1 ps1) as [[[[n err2] tok2] ps2]|] eqn:Ha;
    [|discriminate].
  injection Hrun as <-. exists err1, tok1, ps1, n, err2, tok2, ps2.
  split; [done|]. split; [done|]. split.
  - revert Ha. unfold after_loop.
    destruct (Z.eqb_spec (error err1) E_DONE) as [Hd|Hd].
    + destruct (start =? single_input)%Z.
      * destruct (trailing_loop _ _ _) as [[[] cur]|]; intros [= <- <- <- <-];
          auto.
      * intros [= <- <- <- <-]. auto.
    + intros [= <- <- <- <-]. auto.
  - destruct n as [t|]; simpl; [|done]. by destruct (tok_encoding tok2).
Qed.

End driver_facts.

#[local] Existing Instances cpython_errcodes cpython_tokens.
#[local] Existing Instances scripted_source scripted_engine.

#[local] Open Scope Z_scope.

Lemma column_offset_sentinel_witness :
  exists tok2 f started',
    next_feed (new_ErrorDetail None) tok_before_line false
    = (tok2, Some (f, started')) /\
    feed_col f = -1.
Proof.
  destruct (next_feed (new_ErrorDetail None) tok_before_line false)
    as [tok2 [[f started']|]] eqn:Hfeed; [|discriminate].
  exists tok2, f, started'. split; [reflexivity|].
  refine (proj1 (column_offset_sentinel (new_ErrorDetail None)
                   tok_before_line _ tok2 false started' 1 3 4 f _ Hfeed) _);
    [reflexivity | simpl; lia].
Defined.

Lemma end_marker_substitution_witness :
  exists tok2 f,
    next_feed (new_ErrorDetail None) tok_two_open true
    = (tok2, Some (f, false)) /\
    feed_type f = NEWLINE /\ tok_indent tok2 = 0 /\ tok_pendin tok2 = -2.
Proof.
  assert (get_token tok_two_open
          = ((ENDMARKER, 0, 0), (get_token tok_two_open).2)) as Hget
    by reflexivity.
  assert (tok_pendin (get_token tok_two_open).2 = 0) as Hflushed
    by reflexivity.
  destruct (end_marker_substitution (new_ErrorDetail None) tok_two_open
              (get_token tok_two_open).2 (Parser_new [] 257) 0 0 Hget)
    as (tok2 & f & Hfeed & _ & Htype & _ & Hindent & Hpendin & _).
  exists tok2, f. split; [exact Hfeed|]. split; [exact Htype|].
  split; [exact Hindent|].
  exact (Hpendin Hflushed).
Defined.

(** A whole run with one block open when the input ends: after the six
    tokens of the text the engine is fed NEWLINE, the one DEDENT, and,
    the DEDENT having set the flag again, NEWLINE once more at depth
    zero; only then the end marker. *)
Lemma block_closed_at_end_of_input :
  exists r,
    parsetok 20 tok_block [10; 10; 10; 10; 10; 10; 10; 10; 10; 16] 257
             (new_ErrorDetail None) 0 = Some r /\
    res_n r = Some (Parsed [1; 1; 11; 4; 5; 1; 4; 6; 4; 0]).
Proof. eexists. split; vm_compute; reflexivity. Qed.

Lemma single_statement_trailing_witness :
  exists r,
    parsetok 5 (tok_after_statement "x  # done") [10; 16] 256
             (new_ErrorDetail None) 0 = Some r /\
    error (res_err r) = E_DONE /\
    (res_n r = Some (Parsed [1; 4]) \/
     exists enc,
       res_n r = Some (EncodingNode encoding_decl enc 1 (Parsed [1; 4]))).
Proof.
  destruct (parsetok_loop 5 (new_ErrorDetail None)
              (tok_after_statement "x  # done") (Parser_new [10; 16] 256)
              false) as [[[err1 tok1] ps1]|] eqn:Hloop;
    [|vm_compute in Hloop; discriminate].
  assert (error err1 = E_DONE /\ p_tree ps1 = Some [1; 4] /\
          tok_buf tok1 = ["x"%char] ++ String.list_ascii_of_string "  # done"
          /\ tok_cur tok1 = Z.of_nat (length ["x"%char]))
    as (Hdone & Htree & Hbuf & Hcur).
  { vm_compute in Hloop. injection Hloop as <- <- <-. by repeat split. }
  destruct (single_statement_trailing 5 (tok_after_statement "x  # done")
              tok1 [10; 16] 256 (new_ErrorDetail None) err1 0 ps1 [1; 4]
              ["x"%char] (String.list_ascii_of_string "  # done")
              Hloop Hdone Htree eq_refl Hbuf Hcur)
    as (n & err2 & tok2 & ps2 & r & _ & Hrun & Hok & _).
  exists r. split; [exact Hrun|].
  assert (trailing_ok (String.list_ascii_of_string "  # done")) as Hrest.
  { simpl.
    do 2 (apply trailing_blank; [unfold whitespace; rewrite !elem_of_cons; auto|]).
    apply (trailing_comment_eof (String.list_ascii_of_string " done")).
    simpl. rewrite !not_elem_of_cons. repeat split; try done.
    apply not_elem_of_nil. }
  destruct (Hok Hrest) as (_ & _ & Hkind & Hnode).
  split; [exact Hkind | exact Hnode].
Defined.

(** A second statement after the first is refused: no tree, and the kind
    MULTIPLE_STATEMENTS. *)
Lemma second_statement_refused :
  exists r,
    parsetok 5 (tok_after_statement "x; y") [10; 16] 256
             (new_ErrorDetail None) 0 = Some r /\
    res_n r = None /\ error (res_err r) = E_BADSINGLE /\
    offset (res_err r) = 1.
Proof. eexists. split; [vm_compute; reflexivity|]. by repeat split. Qed.

(** C7 fails as stated: for [x = (] the driver sets SYNTAX, with the
    offending token, and the end of [parsetok] replaces it by
    END_OF_FILE. *)
Lemma syntax_error_overwritten_at_eof :
  exists err1 tok1 ps1 r,
    parsetok_loop 10 (new_ErrorDetail None) tok_open_paren
                  (Parser_new [10; 10; 10; 14] 257) false
    = Some (err1, tok1, ps1) /\
    error err1 = E_SYNTAX /\ E_SYNTAX <> E_OK /\
    parsetok 10 tok_open_paren [10; 10; 10; 14] 257 (new_ErrorDetail None) 0
    = Some r /\
    error (res_err r) = E_EOF /\ E_EOF <> E_SYNTAX.
Proof.
  do 4 eexists. split; [vm_compute; reflexivity|].
  split; [reflexivity|]. split; [done|]. split; [vm_compute; reflexivity|].
  split; [reflexivity | done].
Qed.

Lemma error_kind_at_exit_witness :
  exists r,
    parsetok 10 tok_open_paren [10; 10; 10; 14] 257 (new_ErrorDetail None) 0
    = Some r /\
    error (res_err r) = E_EOF.
Proof.
  destruct (parsetok 10 tok_open_paren [10; 10; 10; 14] 257
              (new_ErrorDetail None) 0) as [r|] eqn:Hrun; [|discriminate].
  exists r. split; [reflexivity|].
  destruct (error_kind_at_exit 10 tok_open_paren [10; 10; 10; 14] 257
              (new_ErrorDetail None) 0 r Hrun)
    as (_ & err1 & tok1 & ps1 & n & err2 & tok2 & ps2 & Hloop & Hafter & _ & Hn).
  vm_compute in Hloop. injection Hloop as <- <- <-.
  vm_compute in Hafter. injection Hafter as <- <- <- <-.
  exact Hn.
Defined.

End DriverFacts.

(** * Further properties *)

(** ** The exception chainer *)

Module ChainerExtra.
Import Chainer ChainerFacts.

Lemma chain_before_notin V l : V ∉ chain_before V l.
Proof.
  induction l as [|a l IH]; simpl; [apply not_elem_of_nil|].
  destruct (decide (a = V)); [apply not_elem_of_nil|].
  apply not_elem_of_cons. split; [congruence | done].
Qed.

Lemma chain_before_id V l : V ∉ l -> chain_before V l = l.
Proof.
  induction l as [|a l IH]; simpl; [done|]. intros Hn.
  apply not_elem_of_cons in Hn as [Hne Hn].
  rewrite decide_False by congruence. by rewrite IH.
Qed.

(** The scan leaves the active record with the part of its chain that
    comes before [V]. *)
Lemma unlink_loop_before h V o l :
  chain h o l -> o <> ExcRef V ->
  forall fuel, length l < fuel ->
  exists h1 c,
    unlink_loop fuel h o (ExcRef V) = Ok (h1, c) /\
    chain h1 o (chain_before V l) /\
    (forall b, b ∉ l -> h1 !! b = h !! b).
Proof.
  induction 1 as [v Hv | a ob l Ha Hc IH]; intros Hne fuel Hf.
  - destruct fuel as [|fuel]; [lia|]. simpl.
    rewrite GetContext_instance, Hv. simpl.
    exists h, JNull. split; [done|]. split; [by constructor | done].
  - destruct fuel as [|fuel]; [simpl in Hf; lia|]. simpl in Hf.
    assert (a <> V) as HaV by congruence.
    assert (a ∉ l) as Hal.
    { assert (NoDup (a :: l)) as Hnd
        by (eapply chain_NoDup; econstructor; eauto).
      by apply NoDup_cons in Hnd as [? _]. }
    cbn [unlink_loop PyException_GetContext chain_before]. rewrite Ha.
    rewrite decide_False by done.
    destruct (truthy (exc_context ob)) eqn:Ht.
    + unfold js_eq. case_bool_decide as Heq.
      * exists (PyException_SetContext h (ExcRef a) JNull), (exc_context ob).
        split; [done|]. split.
        -- assert (chain_before V l = []) as ->.
           { rewrite Heq in Hc. inversion Hc; subst; [done|].
             simpl. by rewrite decide_True. }
           simpl. apply (chain_step _ _ (set_context JNull ob)).
           ++ by rewrite list_lookup_alter_eq, Ha.
           ++ by constructor.
        -- intros b Hb. apply not_elem_of_cons in Hb as [Hb _].
           simpl. by rewrite list_lookup_alter_ne.
      * destruct (IH Heq fuel ltac:(lia)) as (h1 & c & Hrun & Hc1 & Hsame).
        exists h1, c. split; [done|]. split.
        -- econstructor; [|exact Hc1]. by rewrite Hsame.
        -- intros b Hb. apply not_elem_of_cons in Hb as [_ Hb]. auto.
    + exists h, (exc_context ob). split; [done|]. split; [|done].
      inversion Hc as [v Hv | a' ob' l' Ha' Hc' Hctx]; subst.
      * simpl. by econstructor.
      * rewrite <- Hctx in Ht. discriminate.
Qed.

(** X1.  When the record [V] is raised while another record is active,
    [V] becomes active and its context chain is [V] followed by the chain
    of the record that was active, up to the place where [V] stood on
    it. *)
Theorem chain_after_raise fuel exception o V l st st' :
  g_value st = Some (ExcRef V) ->
  PyExceptionInstance_Check (heap st) (ExcRef V) = true ->
  active st = true -> exc_value st <> ExcRef V ->
  chain (heap st) (exc_value st) l ->
  PyErr_SetObject fuel exception o st = Ok st' ->
  exc_value st' = ExcRef V /\
  chain (heap st') (ExcRef V) (V :: chain_before V l) /\
  context_chain (S (length l)) (heap st') (exc_value st')
  = Some (V :: chain_before V l).
Proof.
  intros Hv Hinst Hact Hne Hl.
  destruct (PyErr_SetObject_body fuel exception o st) as (e' & -> & _).
  unfold set_object_body. rewrite Hv. unfold active in Hact. rewrite Hact.
  rewrite Hinst. simpl. unfold chain_and_install.
  apply js_eq_false in Hne as Heq. rewrite Heq. cbn [negb bind].
  destruct (unlink_loop fuel _ _ _) as [[h1 c]| |] eqn:Hrun; cbn [bind fst snd];
    try discriminate.
  intros [= <-].
  destruct (unlink_loop_before _ V _ l Hl Hne (fuel + S (length l)) ltac:(lia))
    as (h1' & c' & Hrun' & Hc1 & _).
  pose proof (unlink_loop_mono _ _ _ _ _ Hrun (fuel + S (length l))
                ltac:(lia)) as Hrun2.
  rewrite Hrun' in Hrun2. injection Hrun2 as -> ->.
  assert (chain (alter (set_context (exc_value st)) V h1) (ExcRef V)
                (V :: chain_before V l)) as Hchain.
  { apply bool_decide_eq_true in Hinst as [obV HobV].
    assert (exists ob1, h1 !! V = Some ob1) as [ob1 H1].
    { destruct (unlink_loop_shape _ _ _ _ _ _ Hrun) as [-> | [p ->]]; [eauto|].
      destruct (lookup_SetContext_Some _ p JNull _ _ HobV) as (ob1 & ? & _).
      eauto. }
    apply (chain_step _ _ (set_context (exc_value st) ob1)).
    - by rewrite list_lookup_alter_eq, H1.
    - simpl. apply chain_alter_notin; [done | apply chain_before_notin]. }
  split; [reflexivity|]. split; [exact Hchain|].
  change (context_chain (S (length l))
            (alter (set_context (exc_value st)) V h1) (ExcRef V)
          = Some (V :: chain_before V l)).
  apply (context_chain_complete _ (ExcRef V) _ Hchain). simpl.
  assert (length (chain_before V l) <= length l); [|lia].
  clear. induction l as [|a l IH]; simpl; [done|].
  destruct (decide (a = V)); simpl; lia.
Qed.

Lemma chain_after_raise_witness :
  context_chain 4 (heap st_three_after) (exc_value st_three_after)
  = Some [1; 2].
Proof.
  assert (chain (heap st_three) (exc_value st_three) [2; 1; 0]) as Hl.
  { repeat (econstructor; [reflexivity|]). by constructor. }
  refine (proj2 (proj2 (chain_after_raise 5 (JCls TabError) JNull 1 [2; 1; 0]
            st_three st_three_after _ _ _ _ Hl _))); try reflexivity.
  discriminate.
Defined.

Lemma SetContext_records h p c a ob :
  h !! a = Some ob ->
  exists ob', PyException_SetContext h (ExcRef p) c !! a = Some ob' /\
    exc_class ob' = exc_class ob /\ exc_args ob' = exc_args ob /\
    exc_tb ob' = exc_tb ob /\
    (p <> a -> ob' = ob) /\ (p = a -> exc_context ob' = c).
Proof.
  intros Ha. rewrite lookup_SetContext, Ha. simpl.
  destruct (decide (p = a)); eexists; (split; [reflexivity|]);
    repeat split; simpl; congruence.
Qed.

Lemma unlink_loop_cut fuel h o V h1 c :
  unlink_loop fuel h o (ExcRef V) = Ok (h1, c) ->
  h1 = h \/
  exists p, PyException_GetContext h (ExcRef p) = ExcRef V /\
            h1 = PyException_SetContext h (ExcRef p) JNull.
Proof.
  revert o. induction fuel as [|fuel IH]; intros o; [discriminate|]. simpl.
  destruct (truthy _) eqn:Ht; [|intros [= <- <-]; by left].
  destruct (js_eq _ _) eqn:Heq; [|apply IH].
  apply js_eq_true in Heq. intros [= <- <-].
  destruct o as [| | | | | |p]; simpl in *; try discriminate.
  right. exists p. by split.
Qed.

Lemma chain_and_install_kept fuel exception E V st0 st st' :
  (forall a ob, heap st0 !! a = Some ob -> heap st !! a = Some ob) ->
  chain_and_install fuel exception E (ExcRef V) st = Ok st' ->
  length (heap st') = length (heap st) /\ exists cut, kept cut st0 st'.
Proof.
  intros H0. unfold chain_and_install.
  destruct (js_eq E (ExcRef V)) eqn:Heq; simpl.
  - intros [= <-]. split; [done|]. exists None. intros a ob Ha. exists ob.
    split; [by apply H0|]. repeat split; auto.
  - destruct (unlink_loop _ _ _ _) as [[h1 c]| |] eqn:Hrun; simpl;
      try discriminate.
    intros [= <-]. simpl. split.
    { rewrite length_alter.
      destruct (unlink_loop_cut _ _ _ _ _ _ Hrun) as [-> | (p & _ & ->)];
        [done|]. simpl. by rewrite length_alter. }
    destruct (unlink_loop_cut _ _ _ _ _ _ Hrun) as [-> | (p & Hp & ->)].
    + exists None. intros a ob Ha. apply H0 in Ha.
      destruct (SetContext_records _ V E _ _ Ha)
        as (ob' & H' & Hc & Hargs & Htb & Hsame & _).
      exists ob'. split; [exact H'|]. repeat split; try done.
      intros Hne. simpl in Hne. apply Hsame. congruence.
    + exists (Some p). intros a ob Ha. apply H0 in Ha.
      destruct (SetContext_records _ p JNull _ _ Ha)
        as (ob1 & H1 & Hc1 & Hargs1 & Htb1 & Hsame1 & Hcut1).
      destruct (SetContext_records _ V E _ _ H1)
        as (ob' & H' & Hc & Hargs & Htb & Hsame & _).
      exists ob'. split; [exact H'|].
      split; [congruence|]. split; [congruence|]. split; [congruence|].
      intros Hne. simpl in Hne |- *. rewrite Hsame by congruence.
      destruct (decide (p = a)) as [->|Hpa].
      * rewrite decide_True by done.
        simpl in Hp. rewrite Ha in Hp. split; [done|].
        rewrite lookup_SetContext, Ha in H1. rewrite decide_True in H1 by done.
        simpl in H1. congruence.
      * rewrite decide_False by congruence. by apply Hsame1.
Qed.

(** X2.  A raise that returns destroys no record and builds at most
    one: every record is still there with its class, its arguments and
    its traceback.  Apart from the record now active, at most one record
    is changed: the one the scan has cut loose, whose context was the
    record now active and is now none.  Every other record keeps its
    context, also one whose context is the record now active. *)
Theorem records_kept fuel exception o st st' :
  PyErr_SetObject fuel exception o st = Ok st' ->
  length (heap st) <= length (heap st') <= S (length (heap st)) /\
  exists cut, kept cut st st'.
Proof.
  destruct (PyErr_SetObject_body fuel exception o st) as (e' & -> & _).
  unfold set_object_body.
  destruct (g_value st) as [value|]; [|discriminate].
  assert (forall t v tb, kept None st (PyErr_Restore t v tb st)) as Hrest.
  { intros t v tb a ob Ha; exists ob; (split; [done|]); repeat split; auto. }
  destruct (negb (is_null (exc_value st)) && negb (is_None (exc_value st))).
  - destruct (is_null value || negb (PyExceptionInstance_Check (heap st) value)) eqn:Hn.
    + unfold PyEval_CallObject.
      destruct e';
        try (intros [= <-]; simpl; split; [lia | exists None; apply Hrest]).
      intros Hrun. eapply (chain_and_install_kept _ _ _ _ st) in Hrun as [Hlen Hk].
      * split; [|done]. rewrite Hlen. simpl. rewrite length_app. simpl. lia.
      * intros a ob Ha. simpl. by apply lookup_app_l_Some.
    + apply orb_false_iff in Hn as [_ Hn]. apply negb_false_iff in Hn.
      destruct (instance_check_ref _ _ Hn) as [V ->].
      intros Hrun. eapply (chain_and_install_kept _ _ _ _ st) in Hrun as [Hlen Hk];
        [|done]. split; [lia | done].
  - intros [= <-]. simpl. split; [lia|]. exists None. apply Hrest.
Qed.

Lemma records_kept_witness :
  length (heap st_four) <= length (heap st_four_after)
  <= S (length (heap st_four)) /\
  exists cut, kept cut st_four st_four_after.
Proof.
  refine (records_kept 5 (JCls TabError) JNull st_four st_four_after _).
  reflexivity.
Defined.

(** In that raise the record at 2, on the chain of the active record, is
    cut loose from the record at 1, and the record at 3, which is on no
    chain walked, still has the record at 1, now active, as its
    context. *)
Lemma record_off_the_chain_keeps_its_context :
  PyErr_SetObject 5 (JCls TabError) JNull st_four = Ok st_four_after /\
  exc_value st_four_after = ExcRef 1 /\
  PyException_GetContext (heap st_four) (ExcRef 2) = ExcRef 1 /\
  PyException_GetContext (heap st_four_after) (ExcRef 2) = JNull /\
  PyException_GetContext (heap st_four) (ExcRef 3) = ExcRef 1 /\
  PyException_GetContext (heap st_four_after) (ExcRef 3) = ExcRef 1.
Proof. by repeat split. Qed.

End ChainerExtra.

(** ** The error classifier *)

Module ClassifierExtra.
Import Chainer ChainerFacts Classifier ClassifierFacts.

Section classifier_extra.
Context `{ErrCodes} `{TokenTypes}.

(** X3.  The [switch] leaves each kind with its exception class and its
    message, and no message object; the payload built from them is the
    pair of the message and the position. *)
Theorem switch_messages fuel err st :
  (forall msg, payload msg JNull err = JArr [JStr msg; position err]) /\
  (error err = E_SYNTAX -> expected err = INDENT ->
   switch_on_error fuel err st
   = Break IndentationError "expected an indented block" JNull st) /\
  (error err = E_SYNTAX -> expected err <> INDENT -> token err = INDENT ->
   switch_on_error fuel err st
   = Break IndentationError "unexpected indent" JNull st) /\
  (error err = E_SYNTAX -> expected err <> INDENT -> token err = DEDENT ->
   switch_on_error fuel err st
   = Break IndentationError "unexpected unindent" JNull st) /\
  (error err = E_SYNTAX -> expected err <> INDENT -> token err <> INDENT ->
   token err <> DEDENT ->
   switch_on_error fuel err st = Break SyntaxError "invalid syntax" JNull st) /\
  (error err = E_TOKEN ->
   switch_on_error fuel err st = Break SyntaxError "invalid token" JNull st) /\
  (error err = E_EOFS ->
   switch_on_error fuel err st
   = Break SyntaxError "EOF while scanning triple-quoted string literal"
           JNull st) /\
  (error err = E_EOLS ->
   switch_on_error fuel err st
   = Break SyntaxError "EOL while scanning string literal" JNull st) /\
  (error err = E_EOF ->
   switch_on_error fuel err st
   = Break SyntaxError "unexpected EOF while parsing" JNull st) /\
  (error err = E_TABSPACE ->
   switch_on_error fuel err st
   = Break TabError "inconsistent use of tabs and spaces in indentation"
           JNull st) /\
  (error err = E_OVERFLOW ->
   switch_on_error fuel err st
   = Break SyntaxError "expression too long" JNull st) /\
  (error err = E_DEDENT ->
   switch_on_error fuel err st
   = Break IndentationError
           "unindent does not match any outer indentation level" JNull st) /\
  (error err = E_TOODEEP ->
   switch_on_error fuel err st
   = Break IndentationError "too many levels of indentation" JNull st) /\
  (error err = E_LINECONT ->
   switch_on_error fuel err st
   = Break SyntaxError
           "unexpected character after line continuation character"
           JNull st) /\
  (error err = E_IDENTIFIER ->
   switch_on_error fuel err st
   = Break SyntaxError "invalid character in identifier" JNull st) /\
  (error err = E_BADSINGLE ->
   switch_on_error fuel err st
   = Break SyntaxError
           "multiple statements found while compiling a single statement"
           JNull st) /\
  (error err ∉ handled ->
   switch_on_error fuel err st
   = Break SyntaxError "unknown parsing error" JNull st).
Proof.
  split; [done|].
  repeat split; intros He; intros; try (run_switch; fail).
  unfold handled in He. rewrite !not_elem_of_cons in He.
  destruct_and!. run_switch.
Qed.

(** X4.  For a decode error the classifier takes the active exception out
    of the slot and clears the slot; the payload carries the value that
    was active when it is truthy, and the text [unknown decode error]
    otherwise; the raise that follows finds nothing active, so that it
    builds no record and chains nothing. *)
Theorem decode_error_payload fuel err st :
  error err = E_DECODE ->
  exists msg_obj,
    switch_on_error fuel err st
    = Break SyntaxError "unknown decode error" msg_obj (PyErr_Clear st) /\
    payload "unknown decode error" msg_obj err
    = JArr [if truthy (exc_value st) then exc_value st
            else JStr "unknown decode error";
            position err] /\
    (forall st', err_input fuel err st = Ok st' ->
       heap st' = heap st /\ exc_type st' = JCls SyntaxError).
Proof.
  intros He.
  exists (if negb (is_null (exc_value st)) then exc_value st else JNull).
  split; [by run_switch|]. split.
  - unfold payload.
    destruct (exc_value st) as [| |z|s0| | |]; simpl; try reflexivity.
    + by destruct (z =? 0)%Z.
    + by destruct (String.eqb s0 "").
  - intros st'. unfold err_input.
    replace (switch_on_error fuel err st)
      with (Break SyntaxError "unknown decode error"
              (if negb (is_null (exc_value st)) then exc_value st else JNull)
              (PyErr_Clear st)) by (symmetry; by run_switch).
    unfold PyErr_SetObject, set_object_body. simpl.
    destruct (g_value st) as [w|]; [|discriminate].
    intros [= <-]. by simpl.
Qed.

(** X5.  Whatever the record holds, the classifier either returns with
    the state as it was, or calls the chainer with one of the exception
    classes of the file, never [SystemError] and never a value that is not
    a class, on a state whose store is the one it was given. *)
Theorem err_input_raises_a_class fuel err st :
  err_input fuel err st = Ok st \/
  exists cls w st1,
    err_input fuel err st = set_object_body fuel (JCls cls) w st1 /\
    cls <> SystemError /\ heap st1 = heap st /\ g_value st1 = g_value st.
Proof.
  unfold err_input, switch_on_error, PyErr_SetNone, PyErr_SetObject.
  repeat (destruct (_ =? _)%Z;
          [first [by left
                 | right; do 3 eexists; (split; [reflexivity|]); by repeat split
                 | idtac] | ]).
  all: try (right; do 3 eexists; (split; [reflexivity|]); by repeat split).
  destruct (negb (truthy (PyErr_Occurred st))); [|by left].
  right; do 3 eexists; (split; [reflexivity|]); by repeat split.
Qed.

End classifier_extra.

Lemma switch_messages_witness :
  switch_on_error (H:=cpython_errcodes) (H0:=cpython_tokens) 3
                  (mkErr 14 2 0 (Some "  x") 5 (-1) "<string>") st_empty
  = Break IndentationError "unexpected indent" JNull st_empty.
Proof.
  refine (proj1 (proj2 (proj2 (switch_messages (H:=cpython_errcodes)
            (H0:=cpython_tokens) 3 _ st_empty))) _ _ _);
    [reflexivity | discriminate | reflexivity].
Defined.

Lemma decode_error_payload_witness :
  exists msg_obj,
    switch_on_error (H:=cpython_errcodes) (H0:=cpython_tokens) 3 err_decode
                    st_decode_failed
    = Break SyntaxError "unknown decode error" msg_obj
            (PyErr_Clear st_decode_failed) /\
    payload "unknown decode error" msg_obj err_decode
    = JArr [JStr "bad byte"; position err_decode].
Proof.
  destruct (decode_error_payload (H:=cpython_errcodes) (H0:=cpython_tokens)
              3 err_decode st_decode_failed eq_refl)
    as (msg_obj & Hswitch & Hpayload & _).
  exists msg_obj. split; [exact Hswitch | exact Hpayload].
Defined.

End ClassifierExtra.

(** ** The parse driver *)

Module DriverExtra.
Import Chainer Classifier Driver ClassifierFacts DriverFacts.

(** *** Buffers and strings *)

Lemma join_chars s : join "" (String.list_ascii_of_string s) = s.
Proof.
  induction s as [|c s IH]; simpl; [done|].
  destruct (String.list_ascii_of_string s) as [|c' l] eqn:Hl.
  - destruct s; [done | discriminate].
  - simpl in *. by rewrite IH.
Qed.

Lemma length_chars s :
  length (String.list_ascii_of_string s) = String.length s.
Proof. induction s as [|c s IH]; simpl; [done | by rewrite IH]. Qed.

Lemma slice_inside {A} (arr : list A) (a b : Z) :
  (0 <= a <= b)%Z -> (b <= Z.of_nat (length arr))%Z ->
  slice arr a b = take (Z.to_nat (b - a)) (drop (Z.to_nat a) arr).
Proof.
  intros Ha Hb. unfold slice.
  rewrite (proj2 (Z.ltb_ge a 0)) by lia. rewrite (proj2 (Z.ltb_ge b 0)) by lia.
  by rewrite !Z.min_l by lia.
Qed.

Lemma slice_whole {A} (arr : list A) :
  slice arr 0 (Z.of_nat (length arr)) = arr.
Proof.
  rewrite slice_inside by lia. rewrite Z.sub_0_r, Nat2Z.id. simpl.
  rewrite drop_0. by apply take_ge.
Qed.

Lemma string_length_app s1 s2 :
  String.length (s1 +:+ s2) = String.length s1 + String.length s2.
Proof. induction s1 as [|c s1 IH]; simpl; [done | by rewrite IH]. Qed.

Lemma join_comma_length arr :
  String.length (join "," arr) = 2 * length arr - 1.
Proof.
  destruct arr as [|c arr]; [done|].
  assert (String.length (join "," (c :: arr)) = 2 * length arr + 1) as ->;
    [|simpl; lia].
  revert c. induction arr as [|c' arr IH]; intros c; [done|].
  change (join "," (c :: c' :: arr))
    with (String c ("," +:+ join "," (c' :: arr))).
  cbn [String.length]. rewrite string_length_app, IH. simpl. lia.
Qed.

(** X6.  The text handed to the engine for a token that lies inside the
    buffer is made of its characters with a comma between any two of
    them, and a NUL at the end (the array of characters is added to a
    string); for a token of no length it is the NUL alone. *)
Theorem token_str_commas (buf : list ascii) (a b : Z) :
  ((b <= a)%Z -> token_str buf a b = NUL) /\
  ((0 <= a < b)%Z -> (b <= Z.of_nat (length buf))%Z ->
     token_str buf a b
     = join "," (take (Z.to_nat (b - a)) (drop (Z.to_nat a) buf)) +:+ NUL /\
     String.length (token_str buf a b) = 2 * Z.to_nat (b - a)).
Proof.
  unfold token_str. split.
  - intros Hle. by rewrite (proj2 (Z.ltb_ge 0 (b - a))) by lia.
  - intros Ha Hb. rewrite (proj2 (Z.ltb_lt 0 (b - a))) by lia.
    rewrite slice_inside by lia. split; [done|].
    rewrite string_length_app, join_comma_length.
    rewrite length_take_le by (rewrite length_drop; lia). simpl. lia.
Qed.

Lemma token_str_commas_witness :
  token_str (String.list_ascii_of_string "if x") 0 2
  = String "i" (String "," (String "f" NUL)).
Proof.
  refine (eq_trans (proj1 (proj2 (token_str_commas
            (String.list_ascii_of_string "if x") 0 2) _ _)) _);
    [lia | simpl; lia | reflexivity].
Defined.

(** *** Where the scan after a single statement leaves the cursor *)

Lemma skip_blank_cursor rest cur :
  (skip_blank rest cur).2
  = (cur + Z.of_nat (length rest - length (skip_blank rest cur).1))%Z.
Proof.
  revert cur. induction rest as [|c rest IH]; intros cur; simpl; [lia|].
  destruct (is_blank c); simpl; [|lia].
  rewrite IH. pose proof (skip_blank_length rest (cur + 1)). lia.
Qed.

Lemma skip_comment_cursor rest cur :
  (skip_comment rest cur).2
  = (cur + Z.of_nat (length rest - length (skip_comment rest cur).1))%Z.
Proof.
  revert cur. induction rest as [|c rest IH]; intros cur; simpl; [lia|].
  destruct (negb _); simpl; [|lia].
  rewrite IH. pose proof (skip_comment_length rest (cur + 1)). lia.
Qed.

Lemma skipped_blanks blanks rest :
  Forall (fun c => is_blank c = true) blanks ->
  skipped rest -> skipped (blanks ++ rest).
Proof.
  induction 1; simpl; [done|]. intros Hok.
  constructor; [by apply is_blank_whitespace | auto].
Qed.

(** Where the scan stops: at the end of the buffer when it accepts; and
    when it refuses, on a character that is neither whitespace nor [#],
    having passed over whitespace and whole comments only. *)
Lemma trailing_loop_cursor fuel rest cur ok cur' :
  trailing_loop fuel rest cur = Some (ok, cur') ->
  exists passed left,
    rest = passed ++ left /\ cur' = (cur + Z.of_nat (length passed))%Z /\
    if ok then left = []
    else skipped passed /\
         exists c r, left = c :: r /\ (c ∉ whitespace) /\ c <> "#"%char.
Proof.
  revert rest cur. induction fuel as [|fuel IH]; intros rest cur; [discriminate|].
  simpl. destruct (skip_blank_split rest cur) as (bl & Hbl & Hblanks & Hhead).
  pose proof (skip_blank_cursor rest cur) as Hcur.
  destruct (skip_blank rest cur) as [rest1 cur1]. simpl in *.
  assert (length rest - length rest1 = length bl) as Hlen.
  { rewrite Hbl at 1. rewrite length_app. lia. }
  rewrite Hlen in Hcur.
  destruct rest1 as [|c rest1].
  - intros [= <- <-]. exists bl, []. by rewrite Hcur.
  - destruct (Ascii.eqb_spec c "#") as [->|Hc]; simpl.
    + destruct (skip_comment_split rest1 (cur1 + 1))
        as (body & Hbody & Hnl & Hstop).
      pose proof (skip_comment_cursor rest1 (cur1 + 1)) as Hcur2.
      destruct (skip_comment rest1 (cur1 + 1)) as [rest2 cur2]. simpl in *.
      intros Hrun. apply IH in Hrun as (passed & left & Hr2 & Hc2 & Hok).
      exists (bl ++ "#"%char :: body ++ passed), left.
      split.
      { rewrite Hbl, Hbody, Hr2. rewrite <- app_assoc. simpl.
        by rewrite <- app_assoc. }
      split.
      { assert (length rest1 - length rest2 = length body) as Hlen2.
        { rewrite Hbody at 1. rewrite length_app. lia. }
        rewrite Hc2, Hcur2, Hlen2, Hcur. rewrite !length_app. simpl.
        rewrite length_app. lia. }
      destruct ok; [done|].
      destruct Hok as (Hpassed & c & r & -> & Hws & Hhash).
      split; [|by exists c, r].
      apply skipped_blanks; [done|].
      destruct Hstop as [-> | [rest' ->]].
      { by destruct passed. }
      destruct passed as [|c' passed]; simpl in Hr2.
      { injection Hr2 as <- _. exfalso. apply Hws.
        unfold whitespace. rewrite !elem_of_cons. auto. }
      injection Hr2 as <- _.
      inversion Hpassed as [|c' rest0 _ Hrest0|]; subst.
      by constructor.
    + intros [= <- <-]. exists bl, (c :: rest1). split; [done|].
      split; [by rewrite Hcur|].
      split; [rewrite <- (app_nil_r bl); apply skipped_blanks; [done|constructor]|].
      exists c, rest1. split; [done|]. split; [|done].
      intros Hin. apply is_blank_whitespace in Hin. congruence.
Qed.

Section driver_extra.
Context `{ErrCodes} `{TokenTypes}.
Context {TokState Grammar Tree ParserState : Type}.
Context `{!TokenSource TokState} `{!GrammarEngine Grammar Tree ParserState}.

(** X7.  A token that is neither the error token nor an end marker
    arriving with the flag set, is handed to the engine with its own
    type, the line of the tokenizer and the column of its start; the
    tokenizer is left as [get_token] left it and the flag is set.  This
    includes the end marker of an empty input. *)
Theorem token_passed_through (err_ret : ErrorDetail)
    (tok tok1 : Tokenizer TokState) (started : bool) (type a b : Z) :
  get_token tok = ((type, a, b), tok1) ->
  type <> ERRORTOKEN ->
  type <> ENDMARKER \/ started = false ->
  next_feed err_ret tok started
  = (tok1,
     Some (mkFeed type (token_str (tok_buf tok1) a b) (tok_lineno tok1)
                  (col_offset a (tok_line_start tok1)) (expected err_ret),
           true)).
Proof.
  intros Hget Herr Hpass. unfold next_feed. rewrite Hget.
  rewrite (proj2 (Z.eqb_neq _ _) Herr). unfold end_of_input.
  destruct Hpass as [Hne | ->].
  - by rewrite (proj2 (Z.eqb_neq _ _) Hne).
  - by rewrite andb_false_r.
Qed.


Lemma engine_answer (err_ret : ErrorDetail)
    (tok tok2 : Tokenizer TokState) (ps ps' : Parser Tree ParserState)
    (started started' : bool) (f : Feed) (e : Z) :
  next_feed err_ret tok started = (tok2, Some (f, started')) ->
  add_token ps (feed_type f) (feed_str f) (feed_lineno f) (feed_col f)
            (feed_expected f) = (e, ps') ->
  (e = E_OK ->
     parsetok_round err_ret tok ps started
     = Next (set_error E_OK err_ret) tok2 ps' started') /\
  (e = E_DONE ->
     parsetok_round err_ret tok ps started
     = Stop (set_error E_DONE err_ret) tok2 ps') /\
  (e <> E_OK -> e <> E_DONE ->
     parsetok_round err_ret tok ps started
     = Stop (set_token (feed_type f) (set_error e err_ret)) tok2 ps').
Proof.
  intros Hfeed Hadd. unfold parsetok_round, feed_engine.
  rewrite Hfeed, Hadd. repeat split.
  - intros ->. by rewrite Z.eqb_refl.
  - intros ->. rewrite Z.eqb_refl.
    by rewrite (E_pairwise 6 0 E_DONE E_OK eq_refl eq_refl).
  - intros Hok Hdone.
    by rewrite (proj2 (Z.eqb_neq _ _) Hok), (proj2 (Z.eqb_neq _ _) Hdone).
Qed.

(** X9.  When the engine refuses the NEWLINE that stands for the end
    marker, the loop stops with the kind the engine gave and with NEWLINE,
    not ENDMARKER, as the offending token; the open blocks have been
    handed over to the tokenizer already. *)
Theorem end_of_input_error_token (err_ret : ErrorDetail)
    (tok tok1 : Tokenizer TokState) (ps ps' : Parser Tree ParserState)
    (a b e : Z) :
  get_token tok = ((ENDMARKER, a, b), tok1) ->
  add_token ps NEWLINE (token_str (tok_buf tok1) a b) (tok_lineno tok1)
            (col_offset a (tok_line_start tok1)) (expected err_ret)
  = (e, ps') ->
  e <> E_OK -> e <> E_DONE ->
  exists err1 tok2,
    parsetok_round err_ret tok ps true = Stop err1 tok2 ps' /\
    error err1 = e /\ token err1 = NEWLINE /\ same_position err1 err_ret /\
    tok_indent tok2 = 0%Z /\
    tok_pendin tok2
    = (if (tok_indent tok1 =? 0)%Z then tok_pendin tok1
       else - tok_indent tok1)%Z.
Proof.
  intros Hget Hadd Hok Hdone.
  assert (next_feed err_ret tok true
          = (if negb (tok_indent tok1 =? 0)%Z then set_dedents tok1 else tok1,
             Some (mkFeed NEWLINE (token_str (tok_buf tok1) a b)
                          (tok_lineno tok1)
                          (col_offset a (tok_line_start tok1))
                          (expected err_ret), false))) as Hfeed.
  { unfold next_feed. rewrite Hget.
    rewrite (T_pairwise 0 4 ENDMARKER ERRORTOKEN eq_refl eq_refl) by done.
    unfold end_of_input. rewrite Z.eqb_refl. simpl.
    by destruct (tok_indent tok1 =? 0)%Z. }
  destruct (engine_answer err_ret tok _ ps ps' true false _ e Hfeed Hadd)
    as (_ & _ & Hstop).
  do 2 eexists. split; [exact (Hstop Hok Hdone)|].
  split; [done|]. split; [done|]. split; [done|].
  destruct (Z.eqb_spec (tok_indent tok1) 0) as [Hz|Hz]; simpl; by split.
Qed.

Lemma loop_keeps_position (fuel : nat) (err_ret err1 : ErrorDetail)
    (tok tok1 : Tokenizer TokState) (ps ps1 : Parser Tree ParserState)
    (started : bool) :
  parsetok_loop fuel err_ret tok ps started = Some (err1, tok1, ps1) ->
  same_position err1 err_ret.
Proof.
  revert err_ret tok ps started.
  induction fuel as [|fuel IH]; intros err_ret tok ps started; [discriminate|].
  cbn [parsetok_loop]. unfold parsetok_round.
  destruct (next_feed err_ret tok started) as [tok2 [[f started']|]].
  - unfold feed_engine. destruct (add_token _ _ _ _ _ _) as [e ps'].
    destruct (negb (e =? E_OK)%Z).
    + intros [= <- <- <-]. by destruct (negb _).
    + intros Hrun. by apply IH in Hrun.
  - by intros [= <- <- <-].
Qed.


(** X11.  When [parsetok] returns a tree, the error kind is Done, not
    OK; line, offset and text of the record are as they were given; the
    tree has been taken out of the engine, the encoding out of the
    tokenizer; and the tree returned is the tree the engine held when the
    token loop stopped: bare when the tokenizer held no encoding, and
    otherwise under one encoding node that carries the encoding of the
    tokenizer and has the tree as its single child. *)
Theorem parsetok_success (fuel : nat) (tok : Tokenizer TokState)
    (g : Grammar) (start : Z) (err_ret : ErrorDetail) (flags : Z)
    (r : Parsed_) (node : Node Tree) :
  parsetok fuel tok g start err_ret flags = Some r ->
  res_n r = Some node ->
  error (res_err r) = E_DONE /\
  same_position (res_err r) err_ret /\
  tok_encoding (res_tok r) = None /\
  p_tree (res_ps r) = None /\
  exists err1 tok1 ps1 t,
    parsetok_loop fuel err_ret tok (Parser_new g start) false
    = Some (err1, tok1, ps1) /\
    p_tree ps1 = Some t /\ p_state (res_ps r) = p_state ps1 /\
    node = match tok_encoding tok1 with
           | Some enc => EncodingNode encoding_decl enc 1 (Parsed t)
           | None => Parsed t
           end.
Proof.
  unfold parsetok.
  destruct (parsetok_loop _ _ _ _ _) as [[[err1 tok1] ps1]|] eqn:Hloop;
    [|discriminate].
  apply loop_keeps_position in Hloop as Hpos.
  unfold after_loop.
  destruct (Z.eqb_spec (error err1) E_DONE) as [Hd|Hd].
  - assert (forall (tok2 : Tokenizer TokState),
        tok_encoding tok2 = tok_encoding tok1 ->
        res_n (finish (p_tree ps1) err1 tok2 (mkParser None (p_state ps1)))
        = Some node ->
        error (res_err (finish (p_tree ps1) err1 tok2
                          (mkParser None (p_state ps1)))) = E_DONE /\
        same_position (res_err (finish (p_tree ps1) err1 tok2
                                  (mkParser None (p_state ps1)))) err_ret /\
        tok_encoding (res_tok (finish (p_tree ps1) err1 tok2
                                 (mkParser None (p_state ps1)))) = None /\
        p_tree (res_ps (finish (p_tree ps1) err1 tok2
                          (mkParser None (p_state ps1)))) = None /\
        exists err1' tok1' ps1' t,
          Some (err1, tok1, ps1) = Some (err1', tok1', ps1') /\
          p_tree ps1' = Some t /\
          p_state (res_ps (finish (p_tree ps1) err1 tok2
                             (mkParser None (p_state ps1)))) = p_state ps1' /\
          node = match tok_encoding tok1' with
                 | Some enc => EncodingNode encoding_decl enc 1 (Parsed t)
                 | None => Parsed t
                 end) as Hfin.
    { intros tok2 Henc. destruct (p_tree ps1) as [t|] eqn:Ht; [|discriminate].
      unfold finish. rewrite Henc.
      destruct (tok_encoding tok1) as [enc|] eqn:Henc1; simpl; intros [= <-];
        (split; [done|]); (split; [done|]); (split; [done|]);
        (split; [done|]); exists err1, tok1, ps1, t; rewrite Henc1; done. }
    destruct (start =? single_input)%Z.
    + destruct (trailing_loop _ _ _) as [[[] cur]|]; [| |discriminate].
      * intros [= <-]. by apply Hfin.
      * intros [= <-]. discriminate.
    + intros [= <-]. by apply Hfin.
  - intros [= <-]. discriminate.
Qed.

Lemma parsetok_keeps_hint (fuel : nat) (tok : Tokenizer TokState)
    (g : Grammar) (start : Z) (err_ret : ErrorDetail) (flags : Z)
    (r : Parsed_) :
  parsetok fuel tok g start err_ret flags = Some r ->
  expected (res_err r) = expected err_ret /\
  filename (res_err r) = filename err_ret.
Proof.
  unfold parsetok.
  destruct (parsetok_loop _ _ _ _ _) as [[[err1 tok1] ps1]|] eqn:Hloop;
    [|discriminate].
  apply loop_keeps_position in Hloop as (_ & _ & _ & Hexp & Hname).
  assert (forall n e (tok2 : Tokenizer TokState)
            (ps2 : Parser Tree ParserState), expected e = expected err1 ->
            filename e = filename err1 ->
            expected (res_err (finish n e tok2 ps2)) = expected err_ret /\
            filename (res_err (finish n e tok2 ps2)) = filename err_ret) as Hfin.
  { intros [t|] e tok2 ps2 He Hf; unfold finish;
      [destruct (tok_encoding tok2)|]; simpl; split; congruence. }
  unfold after_loop. destruct (error err1 =? E_DONE)%Z.
  - destruct (start =? single_input)%Z.
    + destruct (trailing_loop _ _ _) as [[[] cur]|]; [| |discriminate];
        intros [= <-]; first [by apply Hfin | simpl; split; congruence].
    + intros [= <-]. by apply Hfin.
  - intros [= <-]. first [by apply Hfin | simpl; split; congruence].
Qed.

(** X12.  After the scan of a single statement that starts inside the
    buffer, the buffer is the same and the cursor has only moved
    forward.  It stands at the end of the buffer when the statement is
    accepted.  When it is refused, everything between the old and the new
    cursor is whitespace and whole comments, and the cursor stands on a
    character that is neither whitespace nor [#]: the first character
    that is neither a blank nor part of a comment; its position is then
    the offset of the error. *)
Theorem cursor_after_single_statement (start : Z) (err_ret err2 : ErrorDetail)
    (tok tok2 : Tokenizer TokState) (ps ps2 : Parser Tree ParserState)
    (n : option Tree) :
  error err_ret = E_DONE -> start = single_input ->
  (0 <= tok_cur tok <= Z.of_nat (length (tok_buf tok)))%Z ->
  after_loop start err_ret tok ps = Some (n, err2, tok2, ps2) ->
  tok_buf tok2 = tok_buf tok /\
  (tok_cur tok <= tok_cur tok2 <= Z.of_nat (length (tok_buf tok)))%Z /\
  (error err2 = E_DONE ->
     tok_cur tok2 = Z.of_nat (length (tok_buf tok))) /\
  (error err2 <> E_DONE ->
     n = None /\ error err2 = E_BADSINGLE /\
     offset (res_err (finish n err2 tok2 ps2)) = tok_cur tok2 /\
     exists passed c r,
       drop (Z.to_nat (tok_cur tok)) (tok_buf tok) = passed ++ c :: r /\
       skipped passed /\ (c ∉ whitespace) /\ c <> "#"%char /\
       tok_cur tok2 = (tok_cur tok + Z.of_nat (length passed))%Z /\
       tok_buf tok !! Z.to_nat (tok_cur tok2) = Some c).
Proof.
  intros He -> Hcur. unfold after_loop. rewrite He, !Z.eqb_refl.
  unfold buf_from. rewrite (proj2 (Z.ltb_ge _ 0)) by lia.
  set (rest := drop (Z.to_nat (tok_cur tok)) (tok_buf tok)).
  assert (length rest = length (tok_buf tok) - Z.to_nat (tok_cur tok)) as Hlen
    by apply length_drop.
  destruct (trailing_loop _ _ _) as [[ok cur']|] eqn:Hrun; [|discriminate].
  apply trailing_loop_cursor in Hrun as (passed & left & Hrest & Hcur' & Hok).
  assert (length rest = length passed + length left) as Hsplit
    by (rewrite Hrest; apply length_app).
  destruct ok.
  - intros [= <- <- <- <-]. subst left. simpl in *.
    split; [done|]. split; [lia|]. split; [intros _; lia | done].
  - destruct Hok as (Hpassed & c & r & -> & Hws & Hhash).
    intros [= <- <- <- <-]. simpl in *.
    split; [done|]. split; [lia|]. split.
    + intros Hd. exfalso. revert Hd.
      apply Z.eqb_neq. apply (E_pairwise 17 6 E_BADSINGLE E_DONE eq_refl eq_refl).
      discriminate.
    + intros _. split; [done|]. split; [done|]. split; [done|].
      exists passed, c, r. split; [done|]. split; [done|]. split; [done|].
      split; [done|]. split; [done|].
      replace (Z.to_nat cur') with (Z.to_nat (tok_cur tok) + length passed)
        by lia.
      rewrite <- lookup_drop. fold rest. rewrite Hrest.
      by rewrite list_lookup_middle.
Qed.

(** X13.  When [parsetok] returns no tree, the record holds the line and
    the cursor of the tokenizer; its text is empty when the input length
    is not positive, and when the buffer holds the characters of a string
    and the input length is its length, the text is that string. *)
Theorem failure_position (fuel : nat) (tok : Tokenizer TokState)
    (g : Grammar) (start : Z) (err_ret : ErrorDetail) (flags : Z)
    (r : Parsed_) :
  parsetok fuel tok g start err_ret flags = Some r ->
  res_n r = None ->
  lineno (res_err r) = tok_lineno (res_tok r) /\
  offset (res_err r) = tok_cur (res_tok r) /\
  ((tok_inp (res_tok r) <= 0)%Z -> text (res_err r) = Some "") /\
  (forall s, tok_buf (res_tok r) = String.list_ascii_of_string s ->
             tok_inp (res_tok r) = Z.of_nat (String.length s) ->
             text (res_err r) = Some s).
Proof.
  unfold parsetok.
  destruct (parsetok_loop _ _ _ _ _) as [[[err1 tok1] ps1]|]; [|discriminate].
  destruct (after_loop _ _ _ _) as [[[[n err2] tok2] ps2]|]; [|discriminate].
  intros [= <-]. destruct n as [t|].
  { unfold finish. by destruct (tok_encoding tok2). }
  intros _. simpl. split; [done|]. split; [done|]. split.
  - intros Hle. by rewrite (proj2 (Z.ltb_ge 0 _)) by lia.
  - intros s Hbuf Hinp. rewrite Hbuf, Hinp.
    destruct s as [|c s]; [done|].
    rewrite (proj2 (Z.ltb_lt 0 _)) by (simpl; lia).
    rewrite <- length_chars, slice_whole. by rewrite join_chars.
Qed.

(** X14.  The record [parse_string_object] returns has the expected
    token -1 it was created with, whatever the engine did ([add_token] is
    given the number, not the record), and the file name of the record
    created; so that, INDENT not being -1, the classifier never answers
    [expected an indented block] for it. *)
Theorem parse_never_expects_indent (fuel : nat) (s : string)
    (name : option string) (g : Grammar) (start iflags : Z) (r : Parsed_) :
  parse_string_object fuel s name g start iflags = Some r ->
  expected (res_err r) = (-1)%Z /\
  filename (res_err r) = filename (new_ErrorDetail name) /\
  (INDENT <> (-1)%Z -> error (res_err r) = E_SYNTAX ->
   forall fuel' st,
     switch_on_error fuel' (res_err r) st
     <> Break IndentationError "expected an indented block" JNull st).
Proof.
  unfold parse_string_object. intros Hrun.
  apply parsetok_keeps_hint in Hrun as [Hexp Hname].
  split; [done|]. split; [done|].
  intros Hindent Hsyn fuel' st. unfold switch_on_error.
  rewrite Hsyn, Hexp. compare_codes.
  rewrite (proj2 (Z.eqb_neq (-1) INDENT)) by congruence.
  destruct (_ =? _)%Z; [discriminate|]. destruct (_ =? _)%Z; discriminate.
Qed.

End driver_extra.

#[local] Existing Instances cpython_errcodes cpython_tokens.
#[local] Existing Instances scripted_source scripted_engine.

#[local] Open Scope Z_scope.

Lemma token_passed_through_witness :
  exists tok1 f,
    next_feed (new_ErrorDetail None) tok_two_open false
    = (tok1, Some (f, true)) /\
    feed_type f = ENDMARKER /\ tok_indent tok1 = 2.
Proof.
  assert (get_token tok_two_open
          = ((ENDMARKER, 0, 0), (get_token tok_two_open).2)) as Hget
    by reflexivity.
  assert (ENDMARKER <> ERRORTOKEN) as Hne by (vm_compute; discriminate).
  pose proof (token_passed_through (new_ErrorDetail None) tok_two_open _
                false _ _ _ Hget Hne (or_intror eq_refl))
    as Hfeed.
  do 2 eexists. split; [exact Hfeed|]. split; reflexivity.
Defined.


Lemma end_of_input_error_token_witness :
  exists err1 tok2 ps',
    parsetok_round (new_ErrorDetail None) tok_two_open (Parser_new [14] 257)
                   true
    = Stop err1 tok2 ps' /\
    error err1 = E_SYNTAX /\ token err1 = NEWLINE /\ tok_pendin tok2 = -2.
Proof.
  assert (get_token tok_two_open
          = ((ENDMARKER, 0, 0), (get_token tok_two_open).2)) as Hget
    by reflexivity.
  assert (14 <> E_OK /\ 14 <> E_DONE) as [Hok Hdone]
    by (split; vm_compute; discriminate).
  destruct (add_token (Parser_new [14] 257) NEWLINE
              (token_str (tok_buf (get_token tok_two_open).2) 0 0)
              (tok_lineno (get_token tok_two_open).2)
              (col_offset 0 (tok_line_start (get_token tok_two_open).2))
              (expected (new_ErrorDetail None))) as [e ps'] eqn:Hadd.
  assert (e = 14) as -> by (vm_compute in Hadd; congruence).
  destruct (end_of_input_error_token (new_ErrorDetail None) tok_two_open _
              (Parser_new [14] 257) ps' 0 0 14 Hget Hadd Hok Hdone)
    as (err1 & tok2 & Hround & Hkind & Htoken & _ & _ & Hpendin).
  do 3 eexists. split; [exact Hround|]. split; [exact Hkind|].
  split; [exact Htoken | exact Hpendin].
Defined.


Lemma parsetok_success_witness :
  exists r,
    parsetok 10 tok_name [10; 16] 257 (new_ErrorDetail None) 0 = Some r /\
    res_n r = Some (EncodingNode encoding_decl "utf-8" 1 (Parsed [1; 4])) /\
    error (res_err r) = E_DONE /\ tok_encoding (res_tok r) = None.
Proof.
  destruct (parsetok 10 tok_name [10; 16] 257 (new_ErrorDetail None) 0)
    as [r|] eqn:Hrun; [|vm_compute in Hrun; discriminate].
  assert (res_n r = Some (EncodingNode encoding_decl "utf-8" 1
                                        (Parsed [1; 4]))) as Hn.
  { vm_compute in Hrun. injection Hrun as <-. reflexivity. }
  destruct (parsetok_success 10 tok_name [10; 16] 257 (new_ErrorDetail None)
              0 r _ Hrun Hn) as (Hkind & _ & Henc & _).
  exists r. split; [reflexivity|]. split; [exact Hn|].
  split; [exact Hkind | exact Henc].
Defined.

Lemma cursor_after_single_statement_witness :
  exists tok2,
    after_loop 256 err_done (tok_after_statement "x  # done")
               (mkParser (Some [1; 4]) (([] : list Z), [1; 4]))
    = Some (Some [1; 4], err_done, tok2,
            mkParser None (([] : list Z), [1; 4])) /\
    tok_cur tok2 = 9.
Proof.
  destruct (after_loop 256 err_done (tok_after_statement "x  # done")
              (mkParser (Some [1; 4]) (([] : list Z), [1; 4])))
    as [[[[n err2] tok2] ps2]|] eqn:Hrun; [|vm_compute in Hrun; discriminate].
  assert (error err_done = E_DONE) as Hdone by reflexivity.
  assert (256 = single_input) as Hstart by reflexivity.
  assert (0 <= tok_cur (tok_after_statement "x  # done")
          <= Z.of_nat (length (tok_buf (tok_after_statement "x  # done"))))
    as Hcur by (simpl; lia).
  destruct (cursor_after_single_statement 256 err_done err2
              (tok_after_statement "x  # done") tok2 _ ps2 n
              Hdone Hstart Hcur Hrun)
    as (_ & _ & Hend & _).
  vm_compute in Hrun. injection Hrun as <- <- <- <-.
  exists (set_cur 9 (tok_after_statement "x  # done")).
  split; [reflexivity|]. exact (Hend eq_refl).
Defined.

Lemma failure_position_witness :
  exists r,
    parsetok 10 tok_open_paren [10; 10; 10; 14] 257 (new_ErrorDetail None) 0
    = Some r /\
    text (res_err r) = Some "x = (".
Proof.
  destruct (parsetok 10 tok_open_paren [10; 10; 10; 14] 257
              (new_ErrorDetail None) 0) as [r|] eqn:Hrun;
    [|vm_compute in Hrun; discriminate].
  exists r. split; [reflexivity|].
  destruct (failure_position 10 tok_open_paren [10; 10; 10; 14] 257
              (new_ErrorDetail None) 0 r Hrun) as (_ & _ & _ & Htext).
  { vm_compute in Hrun. injection Hrun as <-. reflexivity. }
  apply Htext; vm_compute in Hrun; injection Hrun as <-; reflexivity.
Defined.

Lemma parse_never_expects_indent_witness :
  exists r,
    parse_string_object 5 "x = (" None [14] 257 0 = Some r /\
    expected (res_err r) = -1.
Proof.
  destruct (parse_string_object 5 "x = (" None [14] 257 0) as [r|] eqn:Hrun;
    [|vm_compute in Hrun; discriminate].
  exists r. split; [reflexivity|].
  exact (proj1 (parse_never_expects_indent 5 "x = (" None [14] 257 0 r Hrun)).
Defined.

End DriverExtra.

(** ** The compiler façade *)

Module FacadeFacts.
Import Chainer Classifier Driver Facade ClassifierFacts DriverFacts.

Section facade_facts.
Context `{ErrCodes} `{TokenTypes}.
Context {TokState Grammar Tree ParserState Mod : Type}.
Context `{!TokenSource TokState} `{!GrammarEngine Grammar Tree ParserState}.
Context `{!AstBuilder Grammar Tree Mod}.

Lemma ToInt32_id z : (- 2 ^ 31 <= z < 2 ^ 31)%Z -> ToInt32 z = z.
Proof. intros Hz. unfold ToInt32. rewrite Z.mod_small; lia. Qed.

(** X15.  When the parse gives no tree, [ast_from_string_object] runs the
    classifier on the record of the parse, does not call the builder, and
    returns no module and the flags as given (or flags of zero).  When it
    gives a tree, the builder is called with that tree and with the flags
    as line 257 leaves them: the flags of the parser being the constant
    zero, they are the given flags converted to a 32-bit integer, which
    are the given flags exactly when these lie between -2^31 and
    2^31 - 1. *)
Theorem ast_from_string_object_cases (fuel : nat) (str : string)
    (name : option string) (start : Z) (flags : option CompilerFlags)
    (st : State) (ret : Parsed_) :
  parse_string_object fuel str name PyParser_Grammar start 0 = Some ret ->
  let given := match flags with Some f => f | None => mkFlags 0 end in
  let passed := mkFlags (ToInt32 (cf_flags given)) in
  (res_n ret = None ->
     ast_from_string_object fuel str name start flags st
     = match err_input fuel (res_err ret) st with
       | Ok st' => Returned (None, given) st'
       | Throw e => ThrownJs e
       | OutOfFuel => Unfinished
       end) /\
  (forall n, res_n ret = Some n ->
     ast_from_string_object fuel str name start flags st
     = match ast_from_node_object n passed name st with
       | Returned m st' => Returned (Some m, passed) st'
       | ThrownJs e => ThrownJs e
       | NotImplementedError msg st' => NotImplementedError msg st'
       | Unfinished => Unfinished
       end) /\
  (passed = given <-> (- 2 ^ 31 <= cf_flags given < 2 ^ 31)%Z).
Proof.
  intros Hparse given passed. unfold ast_from_string_object. rewrite Hparse.
  fold given. split; [|split].
  - by intros ->.
  - intros n ->.
    assert (js_or (cf_flags given) (js_and 0 PyCF_MASK)
            = ToInt32 (cf_flags given)) as ->; [|done].
    unfold js_or, js_and.
    change (ToInt32 0) with 0%Z. rewrite Z.land_0_l.
    change (ToInt32 0) with 0%Z. by rewrite Z.lor_0_r.
  - unfold passed. split.
    + intros Heq. assert (ToInt32 (cf_flags given) = cf_flags given) as <-
        by (by destruct given; injection Heq).
      unfold ToInt32.
      pose proof (Z.mod_pos_bound (cf_flags given + 2 ^ 31) (2 ^ 32)). lia.
    + intros Hrange. rewrite ToInt32_id by done. by destruct given.
Qed.


End facade_facts.

#[local] Existing Instances cpython_errcodes cpython_tokens.
#[local] Existing Instances scripted_source scripted_engine.

Lemma ast_from_string_object_cases_witness :
  ast_from_string_object (AstBuilder0:=scripted_builder [16%Z]) 5 "" None 257
                         (Some (mkFlags 1024)) st_empty
  = Returned (Some (Parsed [0%Z]), mkFlags 1024) st_empty.
Proof.
  destruct (parse_string_object 5 "" None
              (PyParser_Grammar (AstBuilder:=scripted_builder [16%Z])) 257 0)
    as [ret|] eqn:Hparse; [|vm_compute in Hparse; discriminate].
  destruct (ast_from_string_object_cases
              (AstBuilder0:=scripted_builder [16%Z]) 5 "" None 257
              (Some (mkFlags 1024)) st_empty ret Hparse) as [_ Hok].
  vm_compute in Hparse. injection Hparse as <-.
  exact (proj1 Hok (Parsed [0%Z]) eq_refl).
Defined.

(** Flags of 2^31 do not fit: the builder is handed -2^31. *)
Lemma flags_wrap_at_32_bits :
  ast_from_string_object (AstBuilder0:=scripted_builder [16%Z]) 5 "" None 257
                         (Some (mkFlags 2147483648)) st_empty
  = Returned (Some (Parsed [0%Z]), mkFlags (-2147483648)) st_empty.
Proof. vm_compute. reflexivity. Qed.


End FacadeFacts.
